(** * A shallow embedding of the User REST API (api/models.py,
      api/serializer.py, api/views.py, api/urls.py, drfdemo/urls.py) and
      of the command api/management/commands/create_sample_users.py

    The views are a dozen lines each; what they do is decided by the calls
    they make into Django and Django REST framework.  The development
    therefore has three layers:

    - module [Py]: the Python built-ins the framework code leans on
      ([str.strip], [str.lower], [int(str)], [str(int)], the regular
      expression of [IntegerField]);
    - the serializer fields that [ModelSerializer] derives from the [User]
      model, and the table [api_user] with its auto-incrementing key;
    - the three views, the [api_view] wrapper and the URL configuration.

    A Python [str] is [text], the list of its code points.  The method of
    a request is a [string]: the server hands it over as Latin-1 text. *)

From Stdlib Require Import ZArith String Ascii List Bool Lia DecimalString.
From Stdlib Require Import DecimalZ DecimalPos.
From stdpp Require Import base option gmap strings sorting.
Import ListNotations.
Open Scope string_scope.
Open Scope Z_scope.

(** ** Python text *)

(** A [str]: its code points, lone surrogates included. *)
Abbreviation text := (list Z) (only parsing).

Declare Scope text_scope.
Delimit Scope text_scope with text.

(** Literals: a quoted text stands for the code points of its characters. *)
Inductive text_literal : Set :=
  | text_nil
  | text_cons (c : Z) (t : text_literal).

Fixpoint text_of_bytes (l : list Byte.byte) : text_literal :=
  match l with
  | [] => text_nil
  | b :: l' => text_cons (Z.of_N (Byte.to_N b)) (text_of_bytes l')
  end.

Fixpoint bytes_of_text (t : text_literal) : option (list Byte.byte) :=
  match t with
  | text_nil => None
  | text_cons c text_nil =>
      if (32 <=? c) && (c <? 127)
      then (fun b => [b]) <$> Byte.of_N (Z.to_N c) else None
  | text_cons c t' =>
      if (32 <=? c) && (c <? 127) then
        match Byte.of_N (Z.to_N c), bytes_of_text t' with
        | Some b, Some l => Some (b :: l)
        | _, _ => None
        end
      else None
  end.

#[warnings="-via-type-remapping,-via-type-mismatch"]
String Notation list text_of_bytes bytes_of_text
  (via text_literal mapping [[nil] => text_nil, [cons] => text_cons])
  : text_scope.

Infix "++" := app (at level 60, right associativity) : text_scope.

Open Scope text_scope.

(** ** Python built-ins *)

Module Py.

(** *** On the Latin-1 text of a request method *)

Definition ord (c : ascii) : Z := Z.of_N (N_of_ascii c).

Fixpoint map_chars (f : ascii -> ascii) (s : string) : string :=
  match s with
  | EmptyString => EmptyString
  | String c s' => String (f c) (map_chars f s')
  end.

(** [s.lower()], on code points below 256: A-Z and the accented capitals
    of Latin-1 (all of 192..222 but the multiplication sign). *)
Definition lower_char (c : ascii) : ascii :=
  let n := ord c in
  if ((65 <=? n) && (n <=? 90))
     || ((192 <=? n) && (n <=? 222) && negb (n =? 215))
  then ascii_of_N (Z.to_N (n + 32)) else c.

Definition lower (s : string) : string := map_chars lower_char s.

(** The [str] that holds the characters of a Latin-1 text. *)
Fixpoint latin1 (s : string) : text :=
  match s with
  | EmptyString => []
  | String c s' => ord c :: latin1 s'
  end.

(** *** On [str] *)

(** [Py_UNICODE_ISSPACE]: what [str.strip()] removes and what [\s] matches
    in a [str] pattern (the characters of bidirectional type WS, B or S
    and of category Zs). *)
Definition unicode_isspace (c : Z) : bool :=
  ((9 <=? c) && (c <=? 13)) || ((28 <=? c) && (c <=? 32))
  || (c =? 133) || (c =? 160) || (c =? 5760)
  || ((8192 <=? c) && (c <=? 8202))
  || (c =? 8232) || (c =? 8233) || (c =? 8239) || (c =? 8287)
  || (c =? 12288).

(** [Py_ISSPACE]: the C-locale white space that [PyLong_FromString] skips. *)
Definition isspace (c : Z) : bool := ((9 <=? c) && (c <=? 13)) || (c =? 32).

Definition all_chars (p : Z -> bool) (s : text) : bool := forallb p s.

(** [x in s] for a character [x] *)
Definition contains (x : Z) (s : text) : bool := existsb (Z.eqb x) s.

Fixpoint lstrip_by (p : Z -> bool) (s : text) : text :=
  match s with
  | [] => []
  | c :: s' => if p c then lstrip_by p s' else s
  end.

Fixpoint rstrip_by (p : Z -> bool) (s : text) : text :=
  match s with
  | [] => []
  | c :: s' =>
      match rstrip_by p s' with
      | [] => if p c then [] else [c]
      | r => c :: r
      end
  end.

(** [s.strip()] *)
Definition strip (s : text) : text :=
  rstrip_by unicode_isspace (lstrip_by unicode_isspace s).

(** [len(s)] *)
Definition len (s : text) : Z := Z.of_nat (length s).

(** [str(z)] for an [int]. *)
Definition str_of_int (z : Z) : text :=
  latin1 (NilZero.string_of_int (Z.to_int z)).

(** ['{:X}'.format(z)] for a code point: hexadecimal in capitals, without
    leading zeros.  Eight digits are more than a code point has. *)
Definition hex_digit (d : Z) : Z := if d <? 10 then 48 + d else 55 + d.

Fixpoint format_X_from (digits : nat) (z : Z) (acc : text) : text :=
  match digits with
  | O => acc
  | S digits' =>
      let acc' := hex_digit (z mod 16) :: acc in
      if z / 16 =? 0 then acc' else format_X_from digits' (z / 16) acc'
  end.

Definition format_X (z : Z) : text := format_X_from 8 z [].

(** [int(s)] in base 10.  [_PyUnicode_TransformDecimalAndSpaceToASCII]
    keeps the characters below 127 and turns every other white-space
    character into a blank, every other decimal digit into the ASCII
    digit of its value and anything else into a question mark;
    [todecimal] is [Py_UNICODE_TODECIMAL], the table of decimal digits of
    the interpreter's Unicode database.  [PyLong_FromString] then reads:
    white space, an optional sign, digits with single underscores between
    them, white space, end of text; and refuses more digits than
    [sys.get_int_max_str_digits()] allows. *)
Definition to_decimal_and_space (todecimal : Z -> option Z) (c : Z) : Z :=
  if c <? 127 then c
  else if unicode_isspace c then 32
  else match todecimal c with
       | Some d => 48 + d
       | None => 63
       end.

Definition digit_value (c : Z) : option Z :=
  if (48 <=? c) && (c <=? 57) then Some (c - 48) else None.

Definition is_digit (c : Z) : bool :=
  match digit_value c with Some _ => true | None => false end.

Fixpoint long_digits (acc : Z) (s : text) : option Z :=
  match s with
  | [] => Some acc
  | c :: s' =>
      match digit_value c with
      | Some d => long_digits (10 * acc + d) s'
      | None =>
          if c =? 95 then
            match s' with
            | c' :: s'' =>
                match digit_value c' with
                | Some d => long_digits (10 * acc + d) s''
                | None => None
                end
            | [] => None
            end
          else if all_chars isspace s then Some acc else None
      end
  end.

Definition long_unsigned (s : text) : option Z :=
  match s with
  | c :: s' =>
      match digit_value c with
      | Some d => long_digits d s'
      | None => None
      end
  | [] => None
  end.

Definition int_max_str_digits : Z := 4300.

Definition long_from_string (s : text) : option Z :=
  if int_max_str_digits <? len (filter (fun c => is_digit c = true) s) then None
  else
    match lstrip_by isspace s with
    | c :: r =>
        if c =? 43 then long_unsigned r
        else if c =? 45 then Z.opp <$> long_unsigned r
        else long_unsigned (c :: r)
    | [] => None
    end.

Definition int_of_str (todecimal : Z -> option Z) (s : text) : option Z :=
  long_from_string (to_decimal_and_space todecimal <$> s).

(** [re.compile(r'\.0*\s*$').sub('', s)]: a dot followed by zeros and then
    white space up to the end is cut off together with what follows it.
    [zeros_then_space] is the part of the pattern after the dot. *)
Fixpoint zeros_then_space (s : text) : bool :=
  match s with
  | [] => true
  | c :: s' =>
      if c =? 48 then zeros_then_space s'
      else all_chars unicode_isspace s
  end.

Fixpoint re_decimal_sub (s : text) : text :=
  match s with
  | [] => []
  | c :: s' =>
      if (c =? 46) && zeros_then_space s' then []
      else c :: re_decimal_sub s'
  end.

(** The decimal digits of Unicode 14.0, the database of Python 3.11: runs
    of ten code points, each listed by the code point of its zero. *)
Definition unicode_14_zeros : list Z :=
  [48; 1632; 1776; 1984; 2406; 2534; 2662; 2790; 2918; 3046; 3174; 3302;
   3430; 3558; 3664; 3792; 3872; 4160; 4240; 6112; 6160; 6470; 6608; 6784;
   6800; 6992; 7088; 7232; 7248; 42528; 43216; 43264; 43472; 43504; 43600;
   44016; 65296; 66720; 68912; 69734; 69872; 69942; 70096; 70384; 70736;
   70864; 71248; 71360; 71472; 71904; 72016; 72784; 73040; 73120; 92768;
   92864; 93008; 120782; 120792; 120802; 120812; 120822; 123200; 123632;
   125264; 130032].

Definition unicode_14_todecimal (c : Z) : option Z :=
  (fun zero => c - zero)
  <$> find (fun zero => (zero <=? c) && (c <? zero + 10)) unicode_14_zeros.

End Py.

(** ** Decoded request bodies *)

(** What [request.data] holds after the parser has run.  A [float] is
    carried as the text [str()] gives for it ([25.0], [1e+16], [inf]),
    which is all the serializer fields ask of one.  (The JSON parser
    refuses an integer literal of more than 4300 digits, so that [str()]
    of a decoded [int] never fails.) *)
#[warnings="-register-all"]
Inductive value : Type :=
  | VNone
  | VBool (b : bool)
  | VInt (z : Z)
  | VFloat (repr : text)
  | VStr (s : text)
  | VList (l : list value)
  | VDict (d : list (text * value)).

(** [d.get(k)] on the items of a dict. *)
Definition dict_get (k : text) (d : list (text * value)) : option value :=
  snd <$> find (fun kv => bool_decide (fst kv = k)) d.

(** [type(data).__name__] *)
Definition type_name (v : value) : text :=
  match v with
  | VNone => "NoneType"
  | VBool _ => "bool"
  | VInt _ => "int"
  | VFloat _ => "float"
  | VStr _ => "str"
  | VList _ => "list"
  | VDict _ => "dict"
  end.

(** ** Serializer fields (rest_framework.fields) *)

Inductive validation (A : Type) : Type :=
  | Valid (a : A)
  | ValidationError (detail : list text).
Arguments Valid {A} a.
Arguments ValidationError {A} detail.

(** [Field.validate_empty_value] of a field with [required=True],
    [allow_null=False]; [None] is the [empty] marker of an absent key. *)
Definition validate_empty_value (data : option value) : validation value :=
  match data with
  | None => ValidationError ["This field is required."]
  | Some VNone => ValidationError ["This field may not be null."]
  | Some v => Valid v
  end.

(** [Field.run_validators]: every validator runs, the messages add up. *)
Definition run_validators {A : Type} (validators : list (A -> option text))
    (a : A) : validation A :=
  match omap (fun validator => validator a) validators with
  | [] => Valid a
  | errors => ValidationError errors
  end.

Definition MaxLengthValidator (max_length : Z) (s : text) : option text :=
  if max_length <? Py.len s
  then Some ("Ensure this field has no more than "
             ++ Py.str_of_int max_length ++ " characters.")
  else None.

Definition ProhibitNullCharactersValidator (s : text) : option text :=
  if Py.contains 0 s then Some "Null characters are not allowed."
  else None.

(** The code points D800..DFFF. *)
Definition is_surrogate (c : Z) : bool := (55296 <=? c) && (c <=? 57343).

(** The message names the first surrogate of the text. *)
Definition ProhibitSurrogateCharactersValidator (s : text) : option text :=
  match find is_surrogate s with
  | Some surrogate_character =>
      Some ("Surrogate characters are not allowed: U+"
            ++ Py.format_X surrogate_character ++ ".")
  | None => None
  end.

Definition MaxValueValidator (max_value : Z) (z : Z) : option text :=
  if max_value <? z
  then Some ("Ensure this value is less than or equal to "
             ++ Py.str_of_int max_value ++ ".")
  else None.

Definition MinValueValidator (min_value : Z) (z : Z) : option text :=
  if z <? min_value
  then Some ("Ensure this value is greater than or equal to "
             ++ Py.str_of_int min_value ++ ".")
  else None.

(** The test that opens [CharField.run_validation]:
    [data == '' or str(data).strip() == ''].  [str()] of the marker, of
    [None], of a [bool], an [int], a list or a dict has a character that
    is not white space. *)
Definition is_blank (data : option value) : bool :=
  match data with
  | Some (VStr s) => bool_decide (s = "") || bool_decide (Py.strip s = "")
  | Some (VFloat repr) => bool_decide (Py.strip repr = "")
  | _ => false
  end.

(** [CharField.to_internal_value] with [trim_whitespace=True]: a [bool] and
    anything that is not [str], [int] or [float] is refused; what is left
    goes through [str()] and [strip()]. *)
Definition CharField_to_internal_value (data : value) : validation text :=
  match data with
  | VStr s => Valid (Py.strip s)
  | VInt z => Valid (Py.strip (Py.str_of_int z))
  | VFloat repr => Valid (Py.strip repr)
  | _ => ValidationError ["Not a valid string."]
  end.

(** [CharField(max_length=...).run_validation], with the validators in the
    order [CharField.__init__] appends them. *)
Definition CharField_run_validation (max_length : Z) (data : option value)
    : validation text :=
  if is_blank data then ValidationError ["This field may not be blank."]
  else
    match validate_empty_value data with
    | ValidationError e => ValidationError e
    | Valid v =>
        match CharField_to_internal_value v with
        | ValidationError e => ValidationError e
        | Valid s =>
            run_validators
              [MaxLengthValidator max_length; ProhibitNullCharactersValidator;
               ProhibitSurrogateCharactersValidator] s
        end
    end.

(** [IntegerField.to_internal_value]:
    [int(self.re_decimal.sub('', str(data)))] after the length guard on
    [str] input.  [str()] of a [bool], a list or a dict is no numeral;
    [str()] of an [int] is read back as that [int]. *)
Definition IntegerField_to_internal_value (todecimal : Z -> option Z)
    (data : value) : validation Z :=
  match data with
  | VStr s =>
      if 1000 <? Py.len s then ValidationError ["String value too large."]
      else
        match Py.int_of_str todecimal (Py.re_decimal_sub s) with
        | Some z => Valid z
        | None => ValidationError ["A valid integer is required."]
        end
  | VInt z => Valid z
  | VFloat repr =>
      match Py.int_of_str todecimal (Py.re_decimal_sub repr) with
      | Some z => Valid z
      | None => ValidationError ["A valid integer is required."]
      end
  | _ => ValidationError ["A valid integer is required."]
  end.

Definition IntegerField_run_validation (todecimal : Z -> option Z)
    (min_value max_value : Z) (data : option value) : validation Z :=
  match validate_empty_value data with
  | ValidationError e => ValidationError e
  | Valid v =>
      match IntegerField_to_internal_value todecimal v with
      | ValidationError e => ValidationError e
      | Valid z =>
          run_validators
            [MaxValueValidator max_value; MinValueValidator min_value] z
      end
  end.

(** ** api/models.py *)

(** [class User(models.Model)]: the implicit key [id], then [age] and
    [name] in the order the class declares them. *)
Record User : Type := mkUser { id : Z; age : Z; name : text }.

(** [name = models.CharField(max_length=100)] *)
Definition name_max_length : Z := 100.

(** The table [api_user], keyed by its primary key, and the counter of the
    auto-incrementing key: the last [id] the engine has handed out. *)
Record DB : Type := mkDB {
  api_user : gmap Z (Z * text);
  api_user_seq : Z
}.

Definition row_user (kv : Z * (Z * text)) : User :=
  mkUser kv.1 kv.2.1 kv.2.2.

(** Rows compared by their key. *)
Definition key_le (kv1 kv2 : Z * (Z * text)) : Prop := kv1.1 <= kv2.1.

#[global] Instance key_le_dec (kv1 kv2 : Z * (Z * text)) :
  Decision (key_le kv1 kv2) := Z_le_dec kv1.1 kv2.1.

(** [User.objects.all()]: a SELECT without ORDER BY, which the engine
    answers by walking the table in the order of its key. *)
Definition objects_all (db : DB) : list User :=
  row_user <$> merge_sort key_le (map_to_list (api_user db)).

(** [User.objects.get(id=user_id)]; [None] is [User.DoesNotExist]. *)
Definition objects_get (user_id : Z) (db : DB) : option User :=
  (fun r => mkUser user_id r.1 r.2) <$> api_user db !! user_id.

(** The largest key the table holds or has held. *)
Definition last_key (db : DB) : Z :=
  foldr Z.max (api_user_seq db) (map_to_list (api_user db)).*1.

(** [User.objects.create(age=..., name=...)]: the INSERT leaves the key to
    the engine, which hands out one above every key it has handed out and
    every key in the table (the AUTOINCREMENT rule of SQLite, the engine a
    new Django project is configured with). *)
Definition objects_create (a : Z) (n : text) (db : DB) : DB * User :=
  let k := last_key db + 1 in
  (mkDB (<[k := (a, n)]> (api_user db)) k, mkUser k a n).

(** [user.save()] on a loaded instance: UPDATE ... WHERE id = user.id *)
Definition model_save (u : User) (db : DB) : DB :=
  mkDB (<[id u := (age u, name u)]> (api_user db)) (api_user_seq db).

(** [user.delete()] *)
Definition model_delete (u : User) (db : DB) : DB :=
  mkDB (delete (id u) (api_user db)) (api_user_seq db).

(** ** Requests and responses *)

Record Request : Type := mkRequest { method : string; data : value }.

(** The payload of a response.  [Empty] is [Response(status=...)] without
    data; [Metadata] is what [SimpleMetadata] reports about a view and
    [ErrorPage] the page Django renders for an uncaught exception or an
    unknown path: the text of neither is modelled. *)
Inductive body : Type :=
  | Empty
  | Data (v : value)
  | Metadata
  | ErrorPage.

Record Response : Type := mkResponse { response_data : body; status_code : Z }.

Definition HTTP_200_OK : Z := 200.
Definition HTTP_201_CREATED : Z := 201.
Definition HTTP_204_NO_CONTENT : Z := 204.
Definition HTTP_400_BAD_REQUEST : Z := 400.
Definition HTTP_404_NOT_FOUND : Z := 404.
Definition HTTP_405_METHOD_NOT_ALLOWED : Z := 405.
Definition HTTP_500_INTERNAL_SERVER_ERROR : Z := 500.

(** What a view function hands back to the wrapper built by [api_view]. *)
Inductive returned : Type :=
  | Return (r : Response)
  | ReturnNone.

Definition dquote : text := [34].

(** What the exception handler makes of [MethodNotAllowed(method)]. *)
Definition method_not_allowed (m : string) : Response :=
  mkResponse
    (Data (VDict [("detail",
       VStr ("Method " ++ dquote ++ Py.latin1 m ++ dquote
             ++ " not allowed."))]))
    HTTP_405_METHOD_NOT_ALLOWED.

Definition server_error : Response :=
  mkResponse ErrorPage HTTP_500_INTERNAL_SERVER_ERROR.

(** [rest_framework.decorators.api_view]: the wrapper answers the listed
    methods with the function and OPTIONS with the view's metadata; any
    other method raises [MethodNotAllowed], which the exception handler
    turns into a 405 response.  A function that returns [None] trips the
    assertion of [finalize_response], which ends as Django's 500 response. *)
Definition api_view (http_method_names : list string)
    (func : Request -> DB -> DB * returned) (request : Request) (db : DB)
    : DB * Response :=
  let handlers := Py.lower <$> http_method_names in
  let m := Py.lower (method request) in
  if bool_decide (m ∈ handlers) then
    match func request db with
    | (db', Return r) => (db', r)
    | (db', ReturnNone) => (db', server_error)
    end
  else if bool_decide (m = "options"%string) then
    (db, mkResponse Metadata HTTP_200_OK)
  else (db, method_not_allowed (method request)).

(** ** api/management/commands/create_sample_users.py *)

(** [User.objects.count()] *)
Definition objects_count (db : DB) : Z := Z.of_nat (size (api_user db)).

(** [User.objects.filter(name=n).exists()] *)
Definition name_exists (n : text) (db : DB) : bool :=
  existsb (fun u => bool_decide (name u = n)) (objects_all db).

(** [User.objects.all().delete()]: the rows go, the key counter stays. *)
Definition objects_delete_all (db : DB) : DB := mkDB ∅ (api_user_seq db).

(** [self.stdout.write(...)], plain or through [self.style]. *)
Inductive style : Type := Plain | WARNING | SUCCESS.

(** [range(a, b)] *)
Definition range (a b : Z) : list Z := seqZ a (b - a).

(** [s * n] *)
Fixpoint str_times (s : text) (n : nat) : text :=
  match n with
  | O => ""
  | S n' => s ++ str_times s n'
  end.

(** The list [sample_users] of [handle]: name and age of each entry. *)
Definition sample_users : list (text * Z) :=
  [ ("Alice Johnson", 28); ("Bob Smith", 35); ("Charlie Brown", 22);
    ("Diana Prince", 30); ("Edward Wilson", 45); ("Fiona Davis", 26);
    ("George Miller", 33); ("Hannah Taylor", 29); ("Ian Anderson", 41);
    ("Julia Roberts", 37) ].

(** [f'Created user: {user.name} (age {user.age})'] *)
Definition created_line (user : User) : style * text :=
  (Plain,
   "Created user: " ++ name user ++ " (age " ++ Py.str_of_int (age user) ++ ")").

(** The state of [handle] between two statements: the store, the local
    [created_count] and what has been written so far. *)
Definition command_state : Type := DB * Z * list (style * text).

(** The body of the first loop, for index [i].  ([sample_users[i]] cannot
    raise: the range stops below the length of the list.) *)
Definition first_loop_body (st : command_state) (i : Z) : command_state :=
  let '(db, created_count, out) := st in
  match sample_users !! Z.to_nat i with
  | None => st
  | Some (user_name, user_age) =>
      if negb (name_exists user_name db) then
        let '(db', user) := objects_create user_age user_name db in
        (db', created_count + 1, app out [created_line user])
      else
        (db, created_count,
         app out [(WARNING,
                  "User " ++ dquote ++ user_name ++ dquote
                  ++ " already exists, skipping")])
  end.

(** The body of the second loop, for index [i]. *)
Definition second_loop_body (st : command_state) (i : Z) : command_state :=
  let '(db, created_count, out) := st in
  let user_name := "Sample User " ++ Py.str_of_int (i + 1) in
  let user_age := 20 + i mod 30 in
  if negb (name_exists user_name db) then
    let '(db', user) := objects_create user_age user_name db in
    (db', created_count + 1, app out [created_line user])
  else st.

(** [Command.handle] with [options['count']] and [options['clear']]: the
    store afterwards and the lines written. *)
Definition handle (count : Z) (clear_existing : bool) (db : DB)
    : DB * list (style * text) :=
  let '(db, out) :=
    if clear_existing then
      let deleted_count := objects_count db in
      (objects_delete_all db,
       [(WARNING,
         "Deleted " ++ Py.str_of_int deleted_count ++ " existing users")])
    else (db, []) in
  let len_sample := Z.of_nat (length sample_users) in
  let st := foldl first_loop_body (db, 0, out)
                  (range 0 (Z.min count len_sample)) in
  let st :=
    if len_sample <? count
    then foldl second_loop_body st (range len_sample count)
    else st in
  let '(db, created_count, out) := st in
  if 0 <? created_count then
    (db,
     app out [ (SUCCESS,
               "Successfully created " ++ Py.str_of_int created_count
               ++ " sample users!");
              (Plain,
               "Total users in database: "
               ++ Py.str_of_int (objects_count db));
              (Plain, 10 :: str_times "=" 50);
              (Plain, "Next steps:");
              (Plain, "1. Start the server: python manage.py runserver");
              (Plain, "2. Visit: http://127.0.0.1:8000/api/users/");
              (Plain, "3. Try the Django admin: http://127.0.0.1:8000/admin/");
              (Plain,
               "   (Create superuser first: python manage.py createsuperuser)");
              (Plain, str_times "=" 50) ])
  else (db, app out [(WARNING, "No new users were created")]).

(** What the two loop bodies have in common: create the user unless the
    name is taken; [warn] tells whether a taken name is reported. *)
Definition add_if_absent (warn : bool) (st : command_state)
    (item : text * Z) : command_state :=
  let '(db, created_count, out) := st in
  if negb (name_exists item.1 db) then
    let '(db', user) := objects_create item.2 item.1 db in
    (db', created_count + 1, app out [created_line user])
  else if warn then
    (db, created_count,
     app out [(WARNING,
              "User " ++ dquote ++ item.1 ++ dquote
              ++ " already exists, skipping")])
  else st.

(** The users the second loop generates, by index. *)
Definition generated_user (i : Z) : text * Z :=
  ("Sample User " ++ Py.str_of_int (i + 1), 20 + i mod 30).

Section Backend.

(** [Py_UNICODE_TODECIMAL] of the interpreter: the value of a decimal
    digit of its Unicode database, which grows from version to version. *)
Variable todecimal : Z -> option Z.

(** [connection.ops.integer_field_range('IntegerField')] of the configured
    database engine; the settings module is not among the sources. *)
Variables min_value max_value : Z.

(** ** api/serializer.py *)

(** [UserSerializer] with [model = User], [fields = '__all__']: the fields
    [id] (read-only), [age] and [name].  [validated_data] holds the two
    writable ones. *)
Record validated_data : Type := mkValidated { v_age : Z; v_name : text }.

Definition field_error (field_name : text) {A : Type} (r : validation A)
    : list (text * list text) :=
  match r with
  | Valid _ => []
  | ValidationError detail => [(field_name, detail)]
  end.

(** [Serializer.to_internal_value]: each writable field reads its key from
    the dict and validates it; a key [id] in the dict is never read. *)
Definition to_internal_value (d : list (text * value))
    : validated_data + list (text * list text) :=
  let r_age :=
    IntegerField_run_validation todecimal min_value max_value
      (dict_get "age" d) in
  let r_name := CharField_run_validation name_max_length (dict_get "name" d) in
  match r_age, r_name with
  | Valid a, Valid n => inl (mkValidated a n)
  | _, _ => inr (field_error "age" r_age ++ field_error "name" r_name)
  end.

(** [UserSerializer(data=...).is_valid()]: [inl] is [validated_data], [inr]
    is [serializer.errors]. *)
Definition is_valid (initial_data : value)
    : validated_data + list (text * list text) :=
  match initial_data with
  | VNone => inr [("non_field_errors", ["No data provided"])]
  | VDict d => to_internal_value d
  | other =>
      inr [("non_field_errors",
            ["Invalid data. Expected a dictionary, but got "
             ++ type_name other ++ "."])]
  end.

(** [serializer.errors] as response data. *)
Definition errors_data (errors : list (text * list text)) : value :=
  VDict ((fun e => (e.1, VList (VStr <$> e.2))) <$> errors).

(** [UserSerializer(user).data]: [to_representation] of an instance. *)
Definition to_representation (u : User) : value :=
  VDict [("id", VInt (id u)); ("age", VInt (age u)); ("name", VStr (name u))].

(** [serializer.save()] without an instance: [ModelSerializer.create]. *)
Definition serializer_create (vd : validated_data) (db : DB) : DB * User :=
  objects_create (v_age vd) (v_name vd) db.

(** [serializer.save()] with an instance: [ModelSerializer.update] sets the
    validated attributes and saves. *)
Definition serializer_update (instance : User) (vd : validated_data) (db : DB)
    : DB * User :=
  let u := mkUser (id instance) (v_age vd) (v_name vd) in
  (model_save u db, u).

(** ** api/views.py *)

Definition get_users : Request -> DB -> DB * Response :=
  api_view ["GET"]%string (fun request db =>
    let users := objects_all db in
    (db, Return (mkResponse (Data (VList (to_representation <$> users)))
                            HTTP_200_OK))).

Definition create_user : Request -> DB -> DB * Response :=
  api_view ["POST"]%string (fun request db =>
    match is_valid (data request) with
    | inl vd =>
        let '(db', u) := serializer_create vd db in
        (db', Return (mkResponse (Data (to_representation u))
                                 HTTP_201_CREATED))
    | inr errors =>
        (db, Return (mkResponse (Data (errors_data errors))
                                HTTP_400_BAD_REQUEST))
    end).

Definition user_detail (request : Request) (user_id : Z)
    : DB -> DB * Response :=
  api_view ["GET"; "PUT"; "DELETE"]%string (fun request db =>
    match objects_get user_id db with
    | None => (db, Return (mkResponse Empty HTTP_404_NOT_FOUND))
    | Some user =>
        if String.eqb (method request) "GET" then
          (db, Return (mkResponse (Data (to_representation user)) HTTP_200_OK))
        else if String.eqb (method request) "PUT" then
          match is_valid (data request) with
          | inl vd =>
              let '(db', u) := serializer_update user vd db in
              (db', Return (mkResponse (Data (to_representation u))
                                       HTTP_200_OK))
          | inr errors =>
              (db, Return (mkResponse (Data (errors_data errors))
                                      HTTP_400_BAD_REQUEST))
          end
        else if String.eqb (method request) "DELETE" then
          (model_delete user db,
           Return (mkResponse Empty HTTP_204_NO_CONTENT))
        else (db, ReturnNone)
    end) request.

(** ** api/urls.py and drfdemo/urls.py *)

(** A route of [path()]: literal text and [<int:...>] converters. *)
Inductive segment : Type :=
  | Lit (s : text)
  | IntConverter (kwarg : text).

Fixpoint strip_prefix (p s : text) : option text :=
  match p, s with
  | [], _ => Some s
  | a :: p', b :: s' => if a =? b then strip_prefix p' s' else None
  | _ :: _, [] => None
  end.

(** The longest run of [0-9] at the head of [s], read as a number, and the
    rest; [seen] tells whether a digit has been read. *)
Fixpoint take_digits (acc : Z) (seen : bool) (s : text) : option (Z * text) :=
  match s with
  | c :: s' =>
      match Py.digit_value c with
      | Some d => take_digits (10 * acc + d) true s'
      | None => if seen then Some (acc, s) else None
      end
  | [] => if seen then Some (acc, s) else None
  end.

(** Match a whole path against a route; the literals that follow a
    converter in this project start with a slash, so the converter takes
    every digit there is. *)
Fixpoint match_route (route : list segment) (s : text)
    : option (list (text * Z)) :=
  match route with
  | [] => if bool_decide (s = "") then Some [] else None
  | Lit p :: route' => strip_prefix p s ≫= match_route route'
  | IntConverter kwarg :: route' =>
      '(z, rest) ← take_digits 0 false s;
      kwargs ← match_route route' rest;
      Some ((kwarg, z) :: kwargs)
  end.

Definition View : Type := Request -> list (text * Z) -> DB -> DB * Response.

(** Calling a view with a keyword it does not take, or without the one it
    takes, is a [TypeError]. *)
Definition type_error (db : DB) : DB * Response := (db, server_error).

(** [urlpatterns] of api/urls.py *)
Definition urlpatterns : list (list segment * View) :=
  [ ([Lit "users/"],
     fun request kwargs db =>
       match kwargs with [] => get_users request db | _ => type_error db end);
    ([Lit "users/create"],
     fun request kwargs db =>
       match kwargs with [] => create_user request db | _ => type_error db end);
    ([Lit "users/"; IntConverter "user_id"; Lit "/"],
     fun request kwargs db =>
       match kwargs with
       | [(kwarg, user_id)] =>
           if bool_decide (kwarg = "user_id")
           then user_detail request user_id db
           else type_error db
       | _ => type_error db
       end) ].

(** The first pattern that matches wins. *)
Fixpoint resolve_in (patterns : list (list segment * View)) (s : text)
    : option (Request -> DB -> DB * Response) :=
  match patterns with
  | [] => None
  | (route, view) :: rest =>
      match match_route route s with
      | Some kwargs => Some (fun request => view request kwargs)
      | None => resolve_in rest s
      end
  end.

(** drfdemo/urls.py: [path('api/', include('api.urls'))] under the root
    slash.  [None]: the path does not lead to a view of this application
    (the admin site, or Django's 404 page). *)
Definition resolve (path : text) : option (Request -> DB -> DB * Response) :=
  strip_prefix "/api/" path ≫= resolve_in urlpatterns.

(** One request against the store. *)
Definition serve (path : text) (request : Request) (db : DB)
    : option (DB * Response) :=
  (fun view => view request db) <$> resolve path.


(** ** The properties, in the words of the specification *)

Definition NUL : Z := 0.

(** A stored row is type-valid: the age fits the integer column, the name
    is a non-empty text of at most 100 characters without a NUL. *)
Definition row_valid (r : Z * text) : Prop :=
  min_value <= r.1 <= max_value
  /\ r.2 <> "" /\ Py.len r.2 <= name_max_length /\ Py.contains NUL r.2 = false.

(** The data-model invariant: every key has been handed out by the engine
    and every row is type-valid.  (Keys are unique by the type of the
    table, as the PRIMARY KEY constraint makes them.) *)
Definition Inv (db : DB) : Prop :=
  forall k r, api_user db !! k = Some r ->
    k <= api_user_seq db /\ row_valid r.

(** Validation as section 4.1 words it: [name] a non-empty string of at
    most 100 characters, [age] present and an integer. *)
Definition spec_valid (body : value) : Prop :=
  exists d n a, body = VDict d
    /\ dict_get "name" d = Some (VStr n) /\ n <> "" /\ Py.len n <= 100
    /\ dict_get "age" d = Some (VInt a).

(** Validation as the serializer performs it, in words of its own.

    White space is what [str.strip()] removes; a blank is the white
    space [int()] skips once the text is in ASCII. *)
Definition white (c : Z) : Prop := Py.unicode_isspace c = true.
Definition blank (c : Z) : Prop := Py.isspace c = true.

(** [n] is [t] without the white space at its two ends. *)
Definition trimmed (t n : text) : Prop :=
  exists l r, t = l ++ n ++ r
    /\ Forall white l /\ Forall white r
    /\ (forall c, head n = Some c -> ~ white c)
    /\ (forall c, last n = Some c -> ~ white c).

(** [s'] is [s] without its all-zero fraction: what stands before the dot
    when a dot, zeros and white space end the text, and [s] itself when
    it does not end so. *)
Definition without_zero_fraction (s s' : text) : Prop :=
  (exists z w, s = s' ++ 46 :: z ++ w /\ Forall (eq 48) z /\ Forall white w)
  \/ (s' = s
      /\ forall a z w, s = a ++ 46 :: z ++ w ->
           Forall (eq 48) z -> ~ Forall white w).

(** A numeral and its value: decimal digits, with single underscores
    between them, read in base ten. *)
Inductive numeral : text -> Z -> Prop :=
  | numeral_digit (c d : Z) :
      Py.digit_value c = Some d -> numeral [c] d
  | numeral_next (u : text) (n c d : Z) :
      numeral u n -> Py.digit_value c = Some d ->
      numeral (u ++ [c]) (10 * n + d)
  | numeral_underscore (u : text) (n c d : Z) :
      numeral u n -> Py.digit_value c = Some d ->
      numeral (u ++ [95; c]) (10 * n + d).

(** [s] reads as the integer [z]: with its white space and its decimal
    digits in ASCII, it is blanks, an optional sign, a numeral of at most
    4300 digits, blanks. *)
Definition reads_as_integer (s : text) (z : Z) : Prop :=
  exists lead sign u trail n,
    Py.to_decimal_and_space todecimal <$> s = lead ++ sign ++ u ++ trail
    /\ Forall blank lead /\ Forall blank trail
    /\ numeral u n
    /\ (sign = "" /\ z = n \/ sign = "+" /\ z = n \/ sign = "-" /\ z = - n)
    /\ Py.len (filter (fun c => Py.is_digit c = true) u) <= 4300.

(** The text of a name: a string as it is, a number as Python prints it. *)
Definition name_text (v : value) : option text :=
  match v with
  | VStr s => Some s
  | VInt z => Some (Py.str_of_int z)
  | VFloat repr => Some repr
  | _ => None
  end.

(** The number of an age: an integer as it is; a string of at most 1000
    characters, or a fractional number as Python prints it, as it reads
    once an all-zero fraction is cut off. *)
Definition age_reads (v : value) (a : Z) : Prop :=
  match v with
  | VInt z => a = z
  | VStr s =>
      Py.len s <= 1000
      /\ exists s', without_zero_fraction s s' /\ reads_as_integer s' a
  | VFloat repr =>
      exists s', without_zero_fraction repr s' /\ reads_as_integer s' a
  | _ => False
  end.

Definition name_ok (d : list (text * value)) (n : text) : Prop :=
  exists v t, dict_get "name" d = Some v /\ name_text v = Some t
    /\ trimmed t n
    /\ n <> "" /\ Py.len n <= 100 /\ (NUL ∉ n)
    /\ (forall c, c ∈ n -> c < 55296 \/ 57343 < c).

Definition age_ok (d : list (text * value)) (a : Z) : Prop :=
  exists v, dict_get "age" d = Some v /\ age_reads v a
    /\ min_value <= a <= max_value.

Definition acceptable (body : value) : Prop :=
  exists d n a, body = VDict d /\ name_ok d n /\ age_ok d a.

(** What the data of a response hold under a key, and a 400 response that
    lists messages under a field name. *)
Definition response_field (field : text) (r : Response) : option value :=
  match response_data r with
  | Data (VDict d) => dict_get field d
  | _ => None
  end.

Definition reports (field : text) (r : Response) : Prop :=
  exists msgs, msgs <> [] /\ response_field field r = Some (VList (VStr <$> msgs)).

(** The endpoints and the methods each is declared with. *)
Inductive endpoint : text -> list string -> Prop :=
  | endpoint_users : endpoint "/api/users/" ["GET"]%string
  | endpoint_create : endpoint "/api/users/create" ["POST"]%string
  | endpoint_detail (digits : text) :
      digits <> "" ->
      Py.all_chars Py.is_digit digits = true ->
      endpoint ("/api/users/" ++ digits ++ "/") ["GET"; "PUT"; "DELETE"]%string.

(** [DatabaseOperations.integer_field_range] of the SQLite backend, the
    engine a new Django project is configured with; used for the worked
    examples. *)
Definition sqlite_min : Z := -9223372036854775808.
Definition sqlite_max : Z := 9223372036854775807.

(** What one request can do to the store: nothing, one INSERT of validated
    data under the next key, one UPDATE of a stored row with validated
    data, or one DELETE of a stored row. *)
Inductive step (db : DB) : DB -> Prop :=
  | step_none : step db db
  | step_create (body : value) (vd : validated_data) :
      is_valid body = inl vd ->
      step db (mkDB (<[last_key db + 1 := (v_age vd, v_name vd)]> (api_user db))
                    (last_key db + 1))
  | step_update (body : value) (vd : validated_data) (k : Z) (r : Z * text) :
      is_valid body = inl vd ->
      api_user db !! k = Some r ->
      step db (mkDB (<[k := (v_age vd, v_name vd)]> (api_user db))
                    (api_user_seq db))
  | step_delete (k : Z) (r : Z * text) :
      api_user db !! k = Some r ->
      step db (mkDB (delete k (api_user db)) (api_user_seq db)).

(** What one request gets as an answer, with what it does to the store:
    the store is kept and the status is one of 200, 400, 404, 405 and 500;
    or a row is inserted and the status is 201; or a stored row is
    updated and the status is 200; or a stored row is deleted and the
    status is 204. *)
Inductive outcome (db : DB) : DB -> Response -> Prop :=
  | outcome_kept (r : Response) :
      status_code r ∈ [HTTP_200_OK; HTTP_400_BAD_REQUEST; HTTP_404_NOT_FOUND;
                       HTTP_405_METHOD_NOT_ALLOWED;
                       HTTP_500_INTERNAL_SERVER_ERROR] ->
      outcome db db r
  | outcome_created (body : value) (vd : validated_data) :
      is_valid body = inl vd ->
      outcome db
        (mkDB (<[last_key db + 1 := (v_age vd, v_name vd)]> (api_user db))
              (last_key db + 1))
        (mkResponse
           (Data (to_representation
                    (mkUser (last_key db + 1) (v_age vd) (v_name vd))))
           HTTP_201_CREATED)
  | outcome_updated (body : value) (vd : validated_data) (k : Z)
      (r : Z * text) :
      is_valid body = inl vd ->
      api_user db !! k = Some r ->
      outcome db
        (mkDB (<[k := (v_age vd, v_name vd)]> (api_user db)) (api_user_seq db))
        (mkResponse
           (Data (to_representation (mkUser k (v_age vd) (v_name vd))))
           HTTP_200_OK)
  | outcome_deleted (k : Z) (r : Z * text) :
      api_user db !! k = Some r ->
      outcome db (mkDB (delete k (api_user db)) (api_user_seq db))
        (mkResponse Empty HTTP_204_NO_CONTENT).

(** The stores and bodies of the worked examples. *)
Definition empty_db : DB := mkDB ∅ 0.

(** The two seeded users of the scenario in section 8. *)
Definition two_users : DB :=
  mkDB (<[2 := (2, "B")]> (<[1 := (1, "A")]> ∅)) 2.

Definition body_C : value := VDict [("name", VStr "C"); ("age", VInt 3)].

Definition body_blank : value := VDict [("name", VStr " "); ("age", VInt 1)].

Definition body_invalid : value :=
  VDict [("name", VStr ""); ("age", VStr "not_a_number")].

(** A name that is a fractional number with an age that is one, and a name
    with a lone surrogate. *)
Definition body_floats : value :=
  VDict [("name", VFloat "1.5"); ("age", VFloat "25.0")].

Definition body_surrogate : value :=
  VDict [("name", VStr [65; 55296]); ("age", VInt 1)].
(** ** Python text *)

Lemma str_of_int_head (z : Z) :
  exists c s, Py.str_of_int z = c :: s /\ Py.unicode_isspace c = false.
Proof.
  unfold Py.str_of_int.
  destruct (Z.to_int z) as [d | d]; destruct d; simpl;
    do 2 eexists; (split; [reflexivity | reflexivity]).
Qed.

Lemma rstrip_head (p : Z -> bool) (c : Z) (s : text) :
  p c = false -> Py.rstrip_by p (c :: s) <> "".
Proof.
  intros Hc. simpl. destruct (Py.rstrip_by p s); [rewrite Hc |]; discriminate.
Qed.

Lemma strip_head (c : Z) (s : text) :
  Py.unicode_isspace c = false -> Py.strip (c :: s) <> "".
Proof.
  intros Hc. unfold Py.strip. cbn [Py.lstrip_by]. rewrite Hc.
  now apply rstrip_head.
Qed.

Lemma strip_str_of_int (z : Z) : Py.strip (Py.str_of_int z) <> "".
Proof.
  destruct (str_of_int_head z) as (c & s & -> & Hc). now apply strip_head.
Qed.

Lemma lstrip_by_spec (p : Z -> bool) (s : text) :
  exists l, s = l ++ Py.lstrip_by p s
    /\ Forall (fun c => p c = true) l
    /\ forall c, head (Py.lstrip_by p s) = Some c -> p c = false.
Proof.
  induction s as [| c s (l & Hs & Hl & Hh)]; cbn [Py.lstrip_by].
  - exists []. repeat split; [constructor | discriminate].
  - destruct (p c) eqn:Hc.
    + exists (c :: l). cbn. split; [congruence |]. split; [| assumption].
      now constructor.
    + exists []. split; [reflexivity |]. split; [constructor |].
      now intros c' [= <-].
Qed.

Lemma lstrip_by_app (p : Z -> bool) (l s : text) :
  Forall (fun c => p c = true) l ->
  Py.lstrip_by p (l ++ s) = Py.lstrip_by p s.
Proof.
  induction 1 as [| c l Hc _ IH]; [reflexivity |].
  cbn. now rewrite Hc.
Qed.

Lemma lstrip_by_head (p : Z -> bool) (c : Z) (s : text) :
  p c = false -> Py.lstrip_by p (c :: s) = c :: s.
Proof. intros Hc. cbn. now rewrite Hc. Qed.

Lemma rstrip_by_spec (p : Z -> bool) (s : text) :
  exists r, s = Py.rstrip_by p s ++ r
    /\ Forall (fun c => p c = true) r
    /\ forall c, last (Py.rstrip_by p s) = Some c -> p c = false.
Proof.
  induction s as [| c s (r & Hs & Hr & Hl)]; cbn [Py.rstrip_by].
  - exists []. repeat split; [constructor | discriminate].
  - destruct (Py.rstrip_by p s) as [| c' s'] eqn:E.
    + destruct (p c) eqn:Hc.
      * exists (c :: r). cbn in *. split; [congruence |].
        split; [now constructor | discriminate].
      * exists r. cbn in *. split; [congruence |]. split; [assumption |].
        now intros c0 [= <-].
    + exists r. split; [cbn in *; congruence |]. split; [assumption |].
      intros c0 Hc0. apply Hl. exact Hc0.
Qed.

Lemma rstrip_by_all (p : Z -> bool) (r : text) :
  Forall (fun c => p c = true) r -> Py.rstrip_by p r = [].
Proof.
  induction 1 as [| c r Hc _ IH]; [reflexivity |].
  cbn. now rewrite IH, Hc.
Qed.

Lemma rstrip_by_app (p : Z -> bool) (n r : text) :
  Forall (fun c => p c = true) r ->
  (forall c, last n = Some c -> p c = false) ->
  Py.rstrip_by p (n ++ r) = n.
Proof.
  intros Hr. induction n as [| c n IH]; intros Hl; cbn [app].
  - now apply rstrip_by_all.
  - cbn [Py.rstrip_by]. destruct n as [| c' n].
    + cbn [app]. rewrite rstrip_by_all by assumption.
      now rewrite (Hl c eq_refl).
    + rewrite IH; [reflexivity |]. intros c0 Hc0. apply Hl. exact Hc0.
Qed.

Lemma strip_trimmed (t n : text) : Py.strip t = n <-> trimmed t n.
Proof.
  unfold Py.strip, trimmed, white. split.
  - intros <-.
    destruct (lstrip_by_spec Py.unicode_isspace t) as (l & Ht & Hl & Hh).
    destruct (rstrip_by_spec Py.unicode_isspace
                (Py.lstrip_by Py.unicode_isspace t)) as (r & Hs & Hr & Hlast).
    exists l, r. split; [now rewrite <- Hs |]. split; [assumption |].
    split; [assumption |]. split.
    + intros c Hc. rewrite Hs in Hh.
      destruct (Py.rstrip_by _ _) as [| c' s']; [discriminate |].
      injection Hc as ->. rewrite (Hh c eq_refl). discriminate.
    + intros c Hc. rewrite (Hlast c Hc). discriminate.
  - intros (l & r & -> & Hl & Hr & Hh & Hlast).
    rewrite lstrip_by_app by assumption.
    assert (Hlast' : forall c, last n = Some c -> Py.unicode_isspace c = false).
    { intros c Hc. specialize (Hlast c Hc).
      now destruct (Py.unicode_isspace c). }
    destruct n as [| c n].
    + cbn [app]. destruct (lstrip_by_spec Py.unicode_isspace r)
        as (l' & Hr' & _ & _).
      apply rstrip_by_all. rewrite Hr' in Hr.
      now apply Forall_app in Hr as [_ Hr].
    + rewrite <- app_comm_cons, lstrip_by_head.
      * rewrite app_comm_cons. now apply rstrip_by_app.
      * specialize (Hh c eq_refl). now destruct (Py.unicode_isspace c).
Qed.

Lemma all_chars_Forall (p : Z -> bool) (s : text) :
  Py.all_chars p s = true <-> Forall (fun c => p c = true) s.
Proof.
  unfold Py.all_chars. induction s as [| c s IH]; cbn [forallb].
  - split; [constructor | reflexivity].
  - rewrite andb_true_iff, IH, Forall_cons. reflexivity.
Qed.

Lemma zeros_then_space_spec (s : text) :
  Py.zeros_then_space s = true
  <-> exists z w, s = z ++ w /\ Forall (eq 48) z /\ Forall white w.
Proof.
  unfold white. induction s as [| c s IH]; cbn [Py.zeros_then_space].
  - split; [| reflexivity]. intros _. exists [], [].
    repeat split; constructor.
  - destruct (Z.eqb_spec c 48) as [-> | Hc].
    + rewrite IH. split.
      * intros (z & w & -> & Hz & Hw). exists (48 :: z), w.
        repeat split; [now constructor | assumption].
      * intros (z & w & Hs & Hz & Hw). destruct z as [| c z].
        -- cbn in Hs. subst w. apply Forall_cons in Hw as [Hc _].
           discriminate Hc.
        -- injection Hs as _ ->. apply Forall_cons in Hz as [_ Hz]. eauto.
    + rewrite all_chars_Forall. split.
      * intros Hall. exists [], (c :: s). repeat split; [constructor |].
        assumption.
      * intros (z & w & Hs & Hz & Hw). destruct z as [| c' z].
        -- cbn in Hs. now subst w.
        -- injection Hs as -> _. apply Forall_cons in Hz as [Hz _].
           now contradiction Hc.
Qed.

Lemma zeros_then_space_dot (a b : text) :
  Py.zeros_then_space (a ++ 46 :: b) = false.
Proof.
  destruct (Py.zeros_then_space (a ++ 46 :: b)) eqn:E; [| reflexivity].
  apply zeros_then_space_spec in E as (z & w & Hs & Hz & Hw).
  assert (Hin : 46 ∈ z ++ w).
  { rewrite <- Hs. apply elem_of_app. right. apply list_elem_of_here. }
  apply elem_of_app in Hin as [Hin | Hin].
  - rewrite Forall_forall in Hz. specialize (Hz 46 Hin). discriminate Hz.
  - rewrite Forall_forall in Hw. specialize (Hw 46 Hin). discriminate Hw.
Qed.

Lemma re_decimal_sub_keeps (s : text) :
  (forall a z w, s = a ++ 46 :: z ++ w ->
     Forall (eq 48) z -> ~ Forall white w) ->
  Py.re_decimal_sub s = s.
Proof.
  induction s as [| c s IH]; intros Hno; [reflexivity |].
  cbn [Py.re_decimal_sub].
  destruct ((c =? 46) && Py.zeros_then_space s) eqn:E.
  - apply andb_prop in E as [Hc Hz]. apply Z.eqb_eq in Hc as ->.
    apply zeros_then_space_spec in Hz as (z & w & -> & Hz & Hw).
    now contradiction (Hno [] z w eq_refl Hz).
  - f_equal. apply IH. intros a z w -> Hz.
    now apply (Hno (c :: a) z w).
Qed.

Lemma re_decimal_sub_cuts (s' z w : text) :
  Forall (eq 48) z -> Forall white w ->
  Py.re_decimal_sub (s' ++ 46 :: z ++ w) = s'.
Proof.
  intros Hz Hw. induction s' as [| c s' IH].
  - cbn [app Py.re_decimal_sub].
    replace (Py.zeros_then_space (z ++ w)) with true; [reflexivity |].
    symmetry. apply zeros_then_space_spec. eauto.
  - cbn [app Py.re_decimal_sub]. rewrite zeros_then_space_dot, andb_false_r.
    now rewrite IH.
Qed.

Lemma re_decimal_sub_spec (s s' : text) :
  Py.re_decimal_sub s = s' <-> without_zero_fraction s s'.
Proof.
  split.
  - intros <-. induction s as [| c s IH].
    + right. split; [reflexivity |]. intros a z w Hs. now destruct a.
    + cbn [Py.re_decimal_sub].
      destruct ((c =? 46) && Py.zeros_then_space s) eqn:E.
      * apply andb_prop in E as [Hc Hz]. apply Z.eqb_eq in Hc as ->.
        apply zeros_then_space_spec in Hz as (z & w & -> & Hz & Hw).
        left. now exists z, w.
      * destruct IH as [(z & w & Hs & Hz & Hw) | (Hs & Hno)].
        -- left. exists z, w. split; [| now split].
           cbn [app]. now rewrite <- Hs.
        -- right. rewrite Hs. split; [reflexivity |].
           intros a z w Heq Hz Hw. destruct a as [| c' a].
           ++ injection Heq as -> ->.
              assert (Ht : Py.zeros_then_space (z ++ w) = true)
                by (apply zeros_then_space_spec; eauto).
              rewrite Ht, Z.eqb_refl in E. discriminate E.
           ++ injection Heq as _ ->. now apply (Hno a z w).
  - intros [(z & w & -> & Hz & Hw) | (-> & Hno)].
    + now apply re_decimal_sub_cuts.
    + now apply re_decimal_sub_keeps.
Qed.

Lemma digit_value_Some (c d : Z) :
  Py.digit_value c = Some d <-> 48 <= c <= 57 /\ d = c - 48.
Proof.
  unfold Py.digit_value.
  destruct (Z.leb_spec 48 c); destruct (Z.leb_spec c 57); cbn [andb];
    (split; [intros [= <-] | intros [? ->]]); (reflexivity || lia).
Qed.

Lemma blank_iff (c : Z) : blank c <-> 9 <= c <= 13 \/ c = 32.
Proof.
  unfold blank, Py.isspace.
  destruct (Z.leb_spec 9 c); destruct (Z.leb_spec c 13);
    destruct (Z.eqb_spec c 32); cbn; split; (lia || reflexivity || discriminate || auto).
Qed.

Lemma blank_digit_value (c : Z) : blank c -> Py.digit_value c = None.
Proof.
  intros Hc. apply blank_iff in Hc.
  destruct (Py.digit_value c) as [d |] eqn:E; [| reflexivity].
  apply digit_value_Some in E. lia.
Qed.

Lemma blank_no_digits (l : text) :
  Forall blank l -> filter (fun c => Py.is_digit c = true) l = [].
Proof.
  induction 1 as [| c l Hc _ IH]; [reflexivity |].
  rewrite filter_cons_False; [assumption |].
  unfold Py.is_digit. now rewrite blank_digit_value.
Qed.

Lemma long_digits_blank (n : Z) (trail : text) :
  Forall blank trail -> Py.long_digits n trail = Some n.
Proof.
  intros Ht. destruct trail as [| c trail]; [reflexivity |].
  cbn [Py.long_digits]. pose proof Ht as Hall.
  apply Forall_cons in Ht as [Hc _].
  rewrite (blank_digit_value c Hc). apply blank_iff in Hc.
  destruct (Z.eqb_spec c 95); [lia |].
  replace (Py.all_chars Py.isspace (c :: trail)) with true; [reflexivity |].
  symmetry. now apply all_chars_Forall.
Qed.

Lemma numeral_long (u : text) (n : Z) :
  numeral u n ->
  forall rest, Py.long_unsigned (u ++ rest) = Py.long_digits n rest.
Proof.
  induction 1 as [c d Hd | u n c d _ IH Hd | u n c d _ IH Hd]; intros rest.
  - cbn. now rewrite Hd.
  - rewrite <- app_assoc, IH. cbn. now rewrite Hd.
  - rewrite <- app_assoc, IH. cbn.
    destruct (Py.digit_value 95) eqn:E; [discriminate E |]. now rewrite Hd.
Qed.

Lemma numeral_head (u : text) (n : Z) :
  numeral u n ->
  exists c d u', u = c :: u' /\ Py.digit_value c = Some d.
Proof.
  induction 1 as [c d Hd | u n c d _ (c0 & d0 & u' & -> & Hd0) Hd
                  | u n c d _ (c0 & d0 & u' & -> & Hd0) Hd]; cbn; eauto.
Qed.

Lemma long_digits_inv (rest : text) :
  forall acc z u,
    Py.long_digits acc rest = Some z -> numeral u acc ->
    exists u' trail, rest = u' ++ trail /\ numeral (u ++ u') z
      /\ Forall blank trail.
Proof.
  remember (length rest) as k eqn:Hk. revert rest Hk.
  induction (lt_wf k) as [k _ IH]. intros rest -> acc z u Hz Hu.
  destruct rest as [| c rest].
  - injection Hz as <-. exists [], []. rewrite (app_nil_r u).
    split; [reflexivity |]. split; [assumption | constructor].
  - cbn [Py.long_digits] in Hz.
    destruct (Py.digit_value c) as [d |] eqn:Hd.
    + destruct (IH (length rest)) with (rest := rest) (3 := Hz) (u := u ++ [c])
        as (u' & trail & -> & Hnum & Ht); [cbn; lia | reflexivity | |].
      * now apply numeral_next.
      * exists (c :: u'), trail. rewrite <- app_assoc in Hnum. now repeat split.
    + destruct (Z.eqb_spec c 95) as [-> | Hc].
      * destruct rest as [| c' rest]; [discriminate |].
        destruct (Py.digit_value c') as [d |] eqn:Hd'; [| discriminate].
        destruct (IH (length rest)) with (rest := rest) (3 := Hz)
                                         (u := u ++ [95; c'])
          as (u' & trail & -> & Hnum & Ht); [cbn; lia | reflexivity | |].
        -- now apply numeral_underscore.
        -- exists (95 :: c' :: u'), trail. rewrite <- app_assoc in Hnum.
           now repeat split.
      * destruct (Py.all_chars Py.isspace (c :: rest)) eqn:Hall;
          [| discriminate].
        injection Hz as <-. apply all_chars_Forall in Hall.
        exists [], (c :: rest). rewrite (app_nil_r u). now repeat split.
Qed.

Lemma long_unsigned_inv (r : text) (z : Z) :
  Py.long_unsigned r = Some z ->
  exists u trail, r = u ++ trail /\ numeral u z /\ Forall blank trail.
Proof.
  destruct r as [| c r]; [discriminate |]. cbn.
  destruct (Py.digit_value c) as [d |] eqn:Hd; [| discriminate].
  intros Hz.
  destruct (long_digits_inv r d z [c] Hz) as (u' & trail & -> & Hnum & Ht).
  - now constructor.
  - exists (c :: u'), trail. now repeat split.
Qed.

Lemma long_unsigned_numeral (u trail : text) (n : Z) :
  numeral u n -> Forall blank trail -> Py.long_unsigned (u ++ trail) = Some n.
Proof.
  intros Hu Ht. rewrite (numeral_long u n Hu). now apply long_digits_blank.
Qed.

Lemma long_from_string_spec (a : text) (z : Z) :
  Py.long_from_string a = Some z
  <-> exists lead sign u trail n,
        a = lead ++ sign ++ u ++ trail
        /\ Forall blank lead /\ Forall blank trail /\ numeral u n
        /\ (sign = "" /\ z = n \/ sign = "+" /\ z = n
            \/ sign = "-" /\ z = - n)
        /\ Py.len (filter (fun c => Py.is_digit c = true) u) <= 4300.
Proof.
  unfold Py.long_from_string, Py.int_max_str_digits. split.
  - destruct (Z.ltb_spec 4300
                (Py.len (filter (fun c => Py.is_digit c = true) a)))
      as [| Hlen]; [discriminate |].
    destruct (lstrip_by_spec Py.isspace a) as (lead & Ha & Hlead & _).
    destruct (Py.lstrip_by Py.isspace a) as [| c r]; [discriminate |].
    assert (Hcount : forall sign u trail,
              a = lead ++ sign ++ u ++ trail ->
              Py.len (filter (fun c => Py.is_digit c = true) u) <= 4300).
    { intros sign u trail E. rewrite E in Hlen. unfold Py.len in *.
      rewrite !filter_app, !length_app in Hlen. lia. }
    destruct (Z.eqb_spec c 43) as [-> | H43].
    { intros Hz. apply long_unsigned_inv in Hz as (u & trail & -> & Hu & Ht).
      exists lead, "+", u, trail, z. repeat split; auto.
      now apply (Hcount "+" u trail). }
    destruct (Z.eqb_spec c 45) as [-> | H45].
    { destruct (Py.long_unsigned r) as [n |] eqn:Hn; [| discriminate].
      intros [= <-].
      apply long_unsigned_inv in Hn as (u & trail & -> & Hu & Ht).
      exists lead, "-", u, trail, n. repeat split; auto.
      now apply (Hcount "-" u trail). }
    intros Hz. apply long_unsigned_inv in Hz as (u & trail & Hr & Hu & Ht).
    exists lead, "", u, trail, z. rewrite <- Hr. repeat split; auto.
    apply (Hcount "" u trail). now rewrite <- Hr.
  - intros (lead & sign & u & trail & n & -> & Hlead & Ht & Hu & Hsign & Hlen).
    destruct (numeral_head u n Hu) as (c0 & d0 & u' & Hu' & Hd0).
    assert (Hc0 : Py.isspace c0 = false).
    { apply digit_value_Some in Hd0.
      destruct (Py.isspace c0) eqn:E; [| reflexivity].
      apply blank_iff in E. lia. }
    assert (Hsigns : filter (fun c => Py.is_digit c = true) sign = []).
    { destruct Hsign as [[-> _] | [[-> _] | [-> _]]]; reflexivity. }
    replace (filter (fun c => Py.is_digit c = true)
               (lead ++ sign ++ u ++ trail))
      with (filter (fun c => Py.is_digit c = true) u).
    2:{ rewrite !filter_app, Hsigns, (blank_no_digits lead),
          (blank_no_digits trail) by assumption.
        now rewrite app_nil_r. }
    destruct (Z.ltb_spec 4300
                (Py.len (filter (fun c => Py.is_digit c = true) u)));
      [lia |].
    rewrite lstrip_by_app by assumption.
    destruct Hsign as [[-> ->] | [[-> ->] | [-> ->]]]; cbn [app].
    + rewrite Hu'. cbn [app]. rewrite lstrip_by_head by assumption.
      apply digit_value_Some in Hd0.
      destruct (Z.eqb_spec c0 43); [lia |]. destruct (Z.eqb_spec c0 45); [lia |].
      rewrite app_comm_cons, <- Hu'. now apply long_unsigned_numeral.
    + rewrite lstrip_by_head by reflexivity. cbn.
      now apply long_unsigned_numeral.
    + rewrite lstrip_by_head by reflexivity. cbn.
      now rewrite (long_unsigned_numeral u trail n).
Qed.

Lemma int_of_str_spec (s : text) (z : Z) :
  Py.int_of_str todecimal s = Some z <-> reads_as_integer s z.
Proof. apply long_from_string_spec. Qed.

Lemma contains_elem (x : Z) (s : text) : Py.contains x s = false <-> x ∉ s.
Proof.
  unfold Py.contains. induction s as [| c s IH]; cbn [existsb].
  - split; [intros _ H; inversion H | reflexivity].
  - rewrite orb_false_iff, IH, not_elem_of_cons, Z.eqb_neq. reflexivity.
Qed.

(** ** The serializer fields *)

Lemma run_validators_nonempty {A : Type} (vs : list (A -> option text))
    (a : A) (e : list text) :
  run_validators vs a = ValidationError e -> e <> [].
Proof.
  unfold run_validators. destruct (omap _ vs); [discriminate |].
  intros [= <-]. discriminate.
Qed.

Lemma run_validators_valid {A : Type} (vs : list (A -> option text))
    (a b : A) :
  run_validators vs a = Valid b -> b = a.
Proof.
  unfold run_validators. destruct (omap _ vs); [| discriminate].
  now intros [= <-].
Qed.

Lemma find_surrogate_None (s : text) :
  find is_surrogate s = None <-> forall c, c ∈ s -> c < 55296 \/ 57343 < c.
Proof.
  induction s as [| x s IH]; cbn [find].
  - split; [intros _ c Hc; inversion Hc | reflexivity].
  - unfold is_surrogate at 1.
    destruct (Z.leb_spec 55296 x); destruct (Z.leb_spec x 57343); cbn [andb];
      try (rewrite IH; split;
           [intros Hs c Hc; apply elem_of_cons in Hc as [-> | Hc];
              [lia | now apply Hs]
           | intros Hs c Hc; apply Hs; now apply list_elem_of_further]).
    split; [discriminate |]. intros Hs.
    destruct (Hs x); [apply list_elem_of_here | lia | lia].
Qed.

Lemma name_validators_iff (s n : text) :
  run_validators
    [MaxLengthValidator name_max_length; ProhibitNullCharactersValidator;
     ProhibitSurrogateCharactersValidator] s
  = Valid n
  <-> n = s /\ Py.len s <= 100 /\ Py.contains NUL s = false
      /\ (forall c, c ∈ s -> c < 55296 \/ 57343 < c).
Proof.
  rewrite <- find_surrogate_None.
  unfold run_validators, MaxLengthValidator, ProhibitNullCharactersValidator,
    ProhibitSurrogateCharactersValidator, name_max_length, NUL.
  simpl. destruct (Z.ltb_spec 100 (Py.len s)) as [Hlen | Hlen];
    destruct (Py.contains 0 s) eqn:Hnul;
    destruct (find is_surrogate s) eqn:Hsur; simpl; split;
    try discriminate; try (intros (_ & ? & ? & ?); (lia || discriminate)).
  - now intros [= <-].
  - now intros (-> & _).
Qed.

Lemma age_validators_iff (z a : Z) :
  run_validators [MaxValueValidator max_value; MinValueValidator min_value] z
  = Valid a
  <-> a = z /\ min_value <= z <= max_value.
Proof.
  unfold run_validators, MaxValueValidator, MinValueValidator. simpl.
  destruct (Z.ltb_spec max_value z); destruct (Z.ltb_spec z min_value);
    simpl; split; try discriminate; try (intros (_ & ?); lia).
  - now intros [= <-].
  - now intros (-> & _).
Qed.

Lemma CharField_valid_iff (data : option value) (n : text) :
  CharField_run_validation name_max_length data = Valid n
  <-> exists v t, data = Some v /\ name_text v = Some t /\ trimmed t n
        /\ n <> "" /\ Py.len n <= 100 /\ (NUL ∉ n)
        /\ (forall c, c ∈ n -> c < 55296 \/ 57343 < c).
Proof.
  unfold CharField_run_validation. split.
  - destruct data as [v |]; [| discriminate].
    destruct v as [| b | z | repr | s | l | d]; simpl; try discriminate.
    + intros H. apply name_validators_iff in H as (-> & Hlen & Hnul & Hsur).
      exists (VInt z), (Py.str_of_int z).
      apply contains_elem in Hnul.
      repeat split; auto using strip_str_of_int. now apply strip_trimmed.
    + case_bool_decide as Hb; simpl; [discriminate |].
      intros H. apply name_validators_iff in H as (-> & Hlen & Hnul & Hsur).
      exists (VFloat repr), repr. apply contains_elem in Hnul.
      repeat split; auto. now apply strip_trimmed.
    + case_bool_decide as He; simpl; [discriminate |].
      case_bool_decide as Hb; simpl; [discriminate |].
      intros H. apply name_validators_iff in H as (-> & Hlen & Hnul & Hsur).
      exists (VStr s), s. apply contains_elem in Hnul.
      repeat split; auto. now apply strip_trimmed.
  - intros (v & t & -> & Ht & Htrim & Hne & Hlen & Hnul & Hsur).
    apply strip_trimmed in Htrim as <-. apply contains_elem in Hnul.
    destruct v as [| b | z | repr | s | l | d]; simpl in Ht; try discriminate;
      injection Ht as <-; simpl.
    + now apply name_validators_iff.
    + rewrite bool_decide_eq_false_2 by assumption. simpl.
      now apply name_validators_iff.
    + rewrite (bool_decide_eq_false_2 (Py.strip s = "")) by assumption.
      case_bool_decide as He; simpl.
      * subst s. now contradiction Hne.
      * now apply name_validators_iff.
Qed.

Lemma age_reads_text (s : text) (a : Z) :
  Py.int_of_str todecimal (Py.re_decimal_sub s) = Some a
  <-> exists s', without_zero_fraction s s' /\ reads_as_integer s' a.
Proof.
  rewrite int_of_str_spec. split.
  - intros H. exists (Py.re_decimal_sub s). split; [| assumption].
    now apply re_decimal_sub_spec.
  - intros (s' & Hs & H). now apply re_decimal_sub_spec in Hs as ->.
Qed.

Lemma IntegerField_valid_iff (data : option value) (a : Z) :
  IntegerField_run_validation todecimal min_value max_value data = Valid a
  <-> exists v, data = Some v /\ age_reads v a
        /\ min_value <= a <= max_value.
Proof.
  unfold IntegerField_run_validation. split.
  - destruct data as [v |]; [| discriminate].
    destruct v as [| b | z | repr | s | l | d]; simpl; try discriminate.
    + intros H. apply age_validators_iff in H as (-> & Hr).
      exists (VInt z). repeat split; tauto.
    + destruct (Py.int_of_str todecimal (Py.re_decimal_sub repr)) as [z |]
        eqn:Hz; [| discriminate].
      intros H. apply age_validators_iff in H as (-> & Hr).
      exists (VFloat repr). split; [reflexivity |]. split; [| assumption].
      now apply age_reads_text.
    + destruct (Z.ltb_spec 1000 (Py.len s)) as [Hlen | Hlen]; [discriminate |].
      destruct (Py.int_of_str todecimal (Py.re_decimal_sub s)) as [z |] eqn:Hz;
        [| discriminate].
      intros H. apply age_validators_iff in H as (-> & Hr).
      exists (VStr s). split; [reflexivity |]. split; [| assumption].
      split; [assumption |]. now apply age_reads_text.
  - intros (v & -> & Hv & Hr).
    destruct v as [| b | z | repr | s | l | d]; simpl in Hv;
      try contradiction; simpl.
    + subst a. now apply age_validators_iff.
    + apply age_reads_text in Hv. rewrite Hv. now apply age_validators_iff.
    + destruct Hv as [Hlen Hv]. apply age_reads_text in Hv.
      destruct (Z.ltb_spec 1000 (Py.len s)); [lia |].
      rewrite Hv. now apply age_validators_iff.
Qed.

Lemma CharField_error_nonempty (max_length : Z) (data : option value)
    (e : list text) :
  CharField_run_validation max_length data = ValidationError e -> e <> [].
Proof.
  unfold CharField_run_validation.
  destruct (is_blank data); [intros [= <-]; discriminate |].
  destruct data as [v |]; [| intros [= <-]; discriminate].
  destruct v; simpl; try (intros [= <-]; discriminate);
    apply run_validators_nonempty.
Qed.

Lemma IntegerField_error_nonempty (data : option value) (e : list text) :
  IntegerField_run_validation todecimal min_value max_value data = ValidationError e ->
  e <> [].
Proof.
  unfold IntegerField_run_validation.
  destruct data as [v |]; [| intros [= <-]; discriminate].
  destruct v as [| b | z | repr | s | l | d]; simpl;
    try (intros [= <-]; discriminate); try apply run_validators_nonempty.
  - destruct (Py.int_of_str _ _); [apply run_validators_nonempty |].
    intros [= <-]; discriminate.
  - destruct (1000 <? Py.len s); [intros [= <-]; discriminate |].
    destruct (Py.int_of_str _ _); [apply run_validators_nonempty |].
    intros [= <-]; discriminate.
Qed.

(** ** The wrapper of [api_view] *)

Lemma api_view_handler (names : list string)
    (func : Request -> DB -> DB * returned) (request : Request) (db : DB) :
  Py.lower (method request) ∈ Py.lower <$> names ->
  api_view names func request db
  = ((func request db).1,
     match (func request db).2 with
     | Return r => r
     | ReturnNone => server_error
     end).
Proof.
  intros Hin. unfold api_view. rewrite bool_decide_eq_true_2 by assumption.
  destruct (func request db) as [db' []]; reflexivity.
Qed.

Lemma api_view_options (names : list string)
    (func : Request -> DB -> DB * returned) (request : Request) (db : DB) :
  Py.lower (method request) ∉ Py.lower <$> names ->
  Py.lower (method request) = "options"%string ->
  api_view names func request db = (db, mkResponse Metadata HTTP_200_OK).
Proof.
  intros Hnin Hopt. unfold api_view.
  rewrite bool_decide_eq_false_2 by assumption.
  now rewrite bool_decide_eq_true_2 by assumption.
Qed.

Lemma api_view_not_allowed (names : list string)
    (func : Request -> DB -> DB * returned) (request : Request) (db : DB) :
  Py.lower (method request) ∉ Py.lower <$> names ->
  Py.lower (method request) <> "options"%string ->
  api_view names func request db = (db, method_not_allowed (method request)).
Proof.
  intros Hnin Hopt. unfold api_view.
  rewrite bool_decide_eq_false_2 by assumption.
  now rewrite bool_decide_eq_false_2 by assumption.
Qed.

(** *** The serializer *)

Lemma to_internal_value_inl (d : list (text * value)) (vd : validated_data) :
  to_internal_value d = inl vd
  <-> name_ok d (v_name vd) /\ age_ok d (v_age vd).
Proof.
  unfold to_internal_value, name_ok, age_ok.
  rewrite <- CharField_valid_iff, <- IntegerField_valid_iff.
  destruct (IntegerField_run_validation _ _ _ _) as [a | ea];
    destruct (CharField_run_validation _ _) as [n | en]; simpl; split;
    try discriminate; try (intros (? & ?); discriminate).
  - now intros [= <-].
  - intros ([= ->] & [= ->]). now destruct vd.
Qed.

Lemma is_valid_inl (body : value) (vd : validated_data) :
  is_valid body = inl vd
  <-> exists d, body = VDict d /\ name_ok d (v_name vd) /\ age_ok d (v_age vd).
Proof.
  split.
  - destruct body; simpl; try discriminate.
    intros H. apply to_internal_value_inl in H. eauto.
  - intros (d & -> & H). now apply to_internal_value_inl.
Qed.

Lemma is_valid_acceptable (body : value) :
  (exists vd, is_valid body = inl vd) <-> acceptable body.
Proof.
  split.
  - intros (vd & H). apply is_valid_inl in H as (d & -> & Hn & Ha).
    now exists d, (v_name vd), (v_age vd).
  - intros (d & n & a & -> & Hn & Ha). exists (mkValidated a n).
    apply is_valid_inl. now exists d.
Qed.

Lemma is_valid_row (body : value) (vd : validated_data) :
  is_valid body = inl vd -> row_valid (v_age vd, v_name vd).
Proof.
  intros H. apply is_valid_inl in H as (d & -> & Hn & Ha).
  destruct Hn as (v & t & _ & _ & _ & Hne & Hlen & Hnul & _).
  destruct Ha as (va & _ & _ & Hr). apply contains_elem in Hnul.
  unfold row_valid, name_max_length. simpl. auto.
Qed.

Lemma errors_report_name (d : list (text * value))
    (errors : list (text * list text)) (st : Z) :
  to_internal_value d = inr errors ->
  reports "name" (mkResponse (Data (errors_data errors)) st)
  <-> forall n, ~ name_ok d n.
Proof.
  unfold to_internal_value, name_ok. intros H.
  destruct (CharField_run_validation _ _) as [n | en] eqn:Hn.
  - destruct (IntegerField_run_validation _ _ _ _) as [a | ea];
      [discriminate |]. injection H as <-. split.
    + intros (msgs & _ & Hm). discriminate Hm.
    + intros Hbad. apply CharField_valid_iff in Hn.
      now contradiction (Hbad n).
  - split.
    + intros _ n Hok. apply CharField_valid_iff in Hok. congruence.
    + intros _. apply CharField_error_nonempty in Hn.
      destruct (IntegerField_run_validation _ _ _ _); injection H as <-;
        now exists en.
Qed.

Lemma errors_report_age (d : list (text * value))
    (errors : list (text * list text)) (st : Z) :
  to_internal_value d = inr errors ->
  reports "age" (mkResponse (Data (errors_data errors)) st)
  <-> forall a, ~ age_ok d a.
Proof.
  unfold to_internal_value, age_ok. intros H.
  destruct (IntegerField_run_validation _ _ _ _) as [a | ea] eqn:Ha.
  - destruct (CharField_run_validation _ _) as [n | en];
      [discriminate |]. injection H as <-. split.
    + intros (msgs & _ & Hm). discriminate Hm.
    + intros Hbad. apply IntegerField_valid_iff in Ha.
      now contradiction (Hbad a).
  - split.
    + intros _ a Hok. apply IntegerField_valid_iff in Hok. congruence.
    + intros _. apply IntegerField_error_nonempty in Ha.
      destruct (CharField_run_validation _ _); injection H as <-;
        now exists ea.
Qed.

(** *** The views, one request method at a time *)

Lemma create_user_POST (body : value) (db : DB) :
  create_user (mkRequest "POST" body) db
  = match is_valid body with
    | inl vd =>
        ((serializer_create vd db).1,
         mkResponse (Data (to_representation (serializer_create vd db).2))
                    HTTP_201_CREATED)
    | inr errors =>
        (db, mkResponse (Data (errors_data errors)) HTTP_400_BAD_REQUEST)
    end.
Proof.
  unfold create_user.
  rewrite api_view_handler by (vm_compute; repeat constructor).
  simpl. now destruct (is_valid body).
Qed.

Lemma user_detail_missing (m : string) (body : value) (user_id : Z) (db : DB) :
  m ∈ ["GET"; "PUT"; "DELETE"]%string ->
  api_user db !! user_id = None ->
  user_detail (mkRequest m body) user_id db
  = (db, mkResponse Empty HTTP_404_NOT_FOUND).
Proof.
  intros Hm Hnone. unfold user_detail.
  rewrite api_view_handler by (now apply list_elem_of_fmap_2).
  unfold objects_get. now rewrite Hnone.
Qed.

Lemma user_detail_GET (body : value) (user_id : Z) (db : DB) (r : Z * text) :
  api_user db !! user_id = Some r ->
  user_detail (mkRequest "GET" body) user_id db
  = (db, mkResponse (Data (to_representation (mkUser user_id r.1 r.2)))
                    HTTP_200_OK).
Proof.
  intros Hr. unfold user_detail.
  rewrite api_view_handler by (vm_compute; repeat constructor).
  unfold objects_get. now rewrite Hr.
Qed.

Lemma user_detail_PUT (body : value) (user_id : Z) (db : DB) (r : Z * text) :
  api_user db !! user_id = Some r ->
  user_detail (mkRequest "PUT" body) user_id db
  = match is_valid body with
    | inl vd =>
        (mkDB (<[user_id := (v_age vd, v_name vd)]> (api_user db))
              (api_user_seq db),
         mkResponse
           (Data (to_representation (mkUser user_id (v_age vd) (v_name vd))))
           HTTP_200_OK)
    | inr errors =>
        (db, mkResponse (Data (errors_data errors)) HTTP_400_BAD_REQUEST)
    end.
Proof.
  intros Hr. unfold user_detail.
  rewrite api_view_handler by (vm_compute; repeat constructor).
  unfold objects_get. rewrite Hr. simpl. now destruct (is_valid body).
Qed.

Lemma user_detail_DELETE (body : value) (user_id : Z) (db : DB)
    (r : Z * text) :
  api_user db !! user_id = Some r ->
  user_detail (mkRequest "DELETE" body) user_id db
  = (mkDB (delete user_id (api_user db)) (api_user_seq db),
     mkResponse Empty HTTP_204_NO_CONTENT).
Proof.
  intros Hr. unfold user_detail.
  rewrite api_view_handler by (vm_compute; repeat constructor).
  unfold objects_get. now rewrite Hr.
Qed.

(** *** The table and its keys *)

Lemma foldr_max_ge (s : Z) (l : list Z) :
  s <= foldr Z.max s l /\ forall k, k ∈ l -> k <= foldr Z.max s l.
Proof.
  induction l as [| x l [IHs IHl]]; cbn [foldr].
  - split; [lia | intros k Hk; inversion Hk].
  - split; [lia |]. intros k Hk.
    apply elem_of_cons in Hk as [-> | Hk]; [lia |].
    apply IHl in Hk. lia.
Qed.

Lemma last_key_seq (db : DB) : api_user_seq db <= last_key db.
Proof. unfold last_key. now destruct (foldr_max_ge (api_user_seq db)
  (map_to_list (api_user db)).*1). Qed.

Lemma last_key_ge (db : DB) (k : Z) (r : Z * text) :
  api_user db !! k = Some r -> k <= last_key db.
Proof.
  intros Hk. unfold last_key.
  destruct (foldr_max_ge (api_user_seq db) (map_to_list (api_user db)).*1)
    as [_ Hge].
  apply Hge, list_elem_of_fmap. exists (k, r). split; [reflexivity |].
  now apply elem_of_map_to_list.
Qed.

Lemma last_key_fresh (db : DB) : api_user db !! (last_key db + 1) = None.
Proof.
  destruct (api_user db !! (last_key db + 1)) as [r |] eqn:Hk; [| reflexivity].
  apply last_key_ge in Hk. lia.
Qed.

Lemma objects_all_spec (db : DB) (u : User) :
  u ∈ objects_all db <-> api_user db !! id u = Some (age u, name u).
Proof.
  unfold objects_all. rewrite list_elem_of_fmap. split.
  - intros ([k [a n]] & -> & Hin). rewrite merge_sort_Permutation in Hin.
    now apply elem_of_map_to_list in Hin.
  - intros Hu. exists (id u, (age u, name u)). split; [now destruct u |].
    rewrite merge_sort_Permutation. now apply elem_of_map_to_list.
Qed.

Lemma objects_all_length (db : DB) :
  length (objects_all db) = size (api_user db).
Proof.
  unfold objects_all.
  now rewrite length_fmap, merge_sort_Permutation, length_map_to_list.
Qed.

Lemma objects_all_ids_NoDup (db : DB) : NoDup (id <$> objects_all db).
Proof.
  unfold objects_all. rewrite <- list_fmap_compose, merge_sort_Permutation.
  apply (NoDup_fst_map_to_list (api_user db)).
Qed.

Lemma objects_all_ids_sorted (db : DB) : Sorted Z.le (id <$> objects_all db).
Proof.
  unfold objects_all. rewrite <- list_fmap_compose.
  apply (Sorted_fmap _ key_le); [now intros x y |].
  apply Sorted_merge_sort. intros x y. unfold key_le. lia.
Qed.

(** *** What one call of a view does to the store *)

Lemma get_users_step (request : Request) (db : DB) :
  step db (get_users request db).1.
Proof.
  unfold get_users, api_view.
  repeat (case_bool_decide; simpl); constructor.
Qed.

Lemma create_user_step (request : Request) (db : DB) :
  step db (create_user request db).1.
Proof.
  unfold create_user, api_view.
  repeat (case_bool_decide; simpl); try constructor.
  destruct (is_valid (data request)) as [vd | errors] eqn:Hv; simpl.
  - now apply (step_create db (data request)).
  - constructor.
Qed.

Lemma user_detail_step (request : Request) (user_id : Z) (db : DB) :
  step db (user_detail request user_id db).1.
Proof.
  unfold user_detail, api_view.
  repeat (case_bool_decide; simpl); try constructor.
  unfold objects_get.
  destruct (api_user db !! user_id) as [r |] eqn:Hr; simpl; [| constructor].
  destruct (String.eqb (method request) "GET"); simpl; [constructor |].
  destruct (String.eqb (method request) "PUT"); simpl.
  - destruct (is_valid (data request)) as [vd | errors] eqn:Hv; simpl.
    + now apply (step_update db (data request) vd user_id r).
    + constructor.
  - destruct (String.eqb (method request) "DELETE"); simpl.
    + now apply (step_delete db user_id r).
    + constructor.
Qed.

Lemma step_Inv (db db' : DB) : step db db' -> Inv db -> Inv db'.
Proof.
  intros Hstep HInv. destruct Hstep as [| body vd Hv | body vd k r Hv Hk | k r Hk];
    [assumption | | |]; intros j rj; simpl.
  - destruct (decide (last_key db + 1 = j)) as [<- | Hne].
    + rewrite lookup_insert_eq. intros [= <-]. split; [lia |].
      now apply (is_valid_row body).
    + rewrite lookup_insert_ne by assumption. intros Hj.
      destruct (HInv j rj Hj) as [Hle Hrow]. split; [| assumption].
      pose proof (last_key_seq db). lia.
  - destruct (decide (k = j)) as [<- | Hne].
    + rewrite lookup_insert_eq. intros [= <-]. split.
      * now destruct (HInv k r Hk).
      * now apply (is_valid_row body).
    + rewrite lookup_insert_ne by assumption. apply HInv.
  - destruct (decide (k = j)) as [<- | Hne].
    + now rewrite lookup_delete_eq.
    + rewrite lookup_delete_ne by assumption. apply HInv.
Qed.

Lemma step_seq (db db' : DB) :
  step db db' -> api_user_seq db <= api_user_seq db'.
Proof.
  intros []; simpl; try lia. apply Z.le_trans with (last_key db);
    [apply last_key_seq | lia].
Qed.

Lemma step_keys (db db' : DB) (k : Z) :
  step db db' -> is_Some (api_user db' !! k) ->
  is_Some (api_user db !! k) \/ api_user_seq db < k.
Proof.
  intros Hstep. destruct Hstep as [| body vd Hv | body vd j r Hv Hj | j r Hj];
    simpl; [now left | | |].
  - destruct (decide (last_key db + 1 = k)) as [<- | Hne].
    + intros _. right. pose proof (last_key_seq db). lia.
    + rewrite lookup_insert_ne by assumption. now left.
  - destruct (decide (j = k)) as [<- | Hne].
    + intros _. left. now exists r.
    + rewrite lookup_insert_ne by assumption. now left.
  - destruct (decide (j = k)) as [<- | Hne].
    + rewrite lookup_delete_eq. now intros [? [=]].
    + rewrite lookup_delete_ne by assumption. now left.
Qed.

(** *** The URL configuration *)

Lemma match_route_nil (s : text) (kwargs : list (text * Z)) :
  match_route [] s = Some kwargs -> kwargs = [].
Proof. cbn. case_bool_decide; [now intros [= <-] | discriminate]. Qed.

Lemma match_route_lit (p s : text) (kwargs : list (text * Z)) :
  match_route [Lit p] s = Some kwargs -> kwargs = [].
Proof.
  cbn [match_route]. intros H. apply bind_Some in H as (r & _ & H).
  now apply match_route_nil in H.
Qed.

Lemma match_route_detail (s : text) (kwargs : list (text * Z)) :
  match_route [Lit "users/"; IntConverter "user_id"; Lit "/"] s = Some kwargs ->
  exists user_id, kwargs = [("user_id", user_id)].
Proof.
  cbn [match_route]. intros H.
  apply bind_Some in H as (r & _ & H).
  apply bind_Some in H as ([z rest] & _ & H).
  apply bind_Some in H as (kw & Hkw & [= <-]).
  apply (match_route_lit "/") in Hkw as ->. now exists z.
Qed.

Lemma resolve_cases (path : text) (view : Request -> DB -> DB * Response) :
  resolve path = Some view ->
  view = get_users \/ view = create_user
  \/ exists user_id, view = (fun request => user_detail request user_id).
Proof.
  unfold resolve. destruct (strip_prefix "/api/" path) as [s |];
    [| discriminate]. cbn [mbind option_bind]. unfold urlpatterns.
  cbn [resolve_in].
  destruct (match_route [Lit "users/"] s) as [kw |] eqn:E1.
  { apply match_route_lit in E1 as ->. intros [= <-]. now left. }
  destruct (match_route [Lit "users/create"] s) as [kw |] eqn:E2.
  { apply match_route_lit in E2 as ->. intros [= <-]. right. now left. }
  destruct (match_route [Lit "users/"; IntConverter "user_id"; Lit "/"] s)
    as [kw |] eqn:E3; [| discriminate].
  apply match_route_detail in E3 as [user_id ->]. intros [= <-].
  right. right. now exists user_id.
Qed.

Lemma serve_step (path : text) (request : Request) (db db' : DB)
    (resp : Response) :
  serve path request db = Some (db', resp) -> step db db'.
Proof.
  unfold serve. destruct (resolve path) as [view |] eqn:Hview;
    [| discriminate].
  cbn. intros [= Hrun].
  apply resolve_cases in Hview as [-> | [-> | [user_id ->]]].
  - pose proof (get_users_step request db) as H. now rewrite Hrun in H.
  - pose proof (create_user_step request db) as H. now rewrite Hrun in H.
  - pose proof (user_detail_step request user_id db) as H.
    now rewrite Hrun in H.
Qed.

Lemma take_digits_slash (digits : text) (acc : Z) (seen : bool) :
  Py.all_chars Py.is_digit digits = true ->
  seen = true \/ digits <> "" ->
  exists z, take_digits acc seen (digits ++ "/") = Some (z, "/").
Proof.
  revert acc seen. induction digits as [| c digits IH]; intros acc seen Hall Hne.
  - destruct Hne as [-> | Hne]; [| now contradiction Hne].
    now exists acc.
  - cbn in Hall. apply andb_prop in Hall as [Hc Hall].
    unfold Py.is_digit in Hc.
    destruct (Py.digit_value c) as [d |] eqn:Hd; [| discriminate].
    cbn [app take_digits]. rewrite Hd. apply IH; auto.
Qed.

Lemma strip_prefix_app (p q s : text) :
  strip_prefix (p ++ q) (p ++ s) = strip_prefix q s.
Proof.
  induction p as [| a p IH]; [reflexivity |].
  cbn [app strip_prefix]. now rewrite Z.eqb_refl.
Qed.

Lemma strip_prefix_whole (p s : text) : strip_prefix p (p ++ s) = Some s.
Proof.
  induction p as [| a p IH]; [reflexivity |].
  cbn [app strip_prefix]. now rewrite Z.eqb_refl.
Qed.

Lemma resolve_detail_at (digits : text) (z : Z) :
  take_digits 0 false (digits ++ "/") = Some (z, "/") ->
  resolve ("/api/users/" ++ digits ++ "/")
  = Some (fun request => user_detail request z).
Proof.
  intros Hz. destruct digits as [| c digits]; [discriminate Hz |].
  assert (Hc : (99 =? c) = false).
  { apply Z.eqb_neq. intros <-. discriminate Hz. }
  set (rest := (c :: digits) ++ "/") in *.
  assert (Hcreate : strip_prefix "users/create" ("users/" ++ rest) = None).
  { change "users/create" with ("users/" ++ "create").
    rewrite strip_prefix_app. unfold rest.
    cbn [app strip_prefix]. now rewrite Hc. }
  unfold resolve.
  change ("/api/users/" ++ rest) with ("/api/" ++ ("users/" ++ rest)).
  rewrite strip_prefix_whole. cbn [mbind option_bind]. unfold urlpatterns.
  cbn [resolve_in match_route].
  rewrite Hcreate, !strip_prefix_whole. cbn [mbind option_bind]. rewrite Hz.
  reflexivity.
Qed.

Lemma resolve_detail (digits : text) :
  digits <> "" -> Py.all_chars Py.is_digit digits = true ->
  exists user_id,
    resolve ("/api/users/" ++ digits ++ "/")
    = Some (fun request => user_detail request user_id).
Proof.
  intros Hne Hall.
  destruct (take_digits_slash digits 0 false Hall (or_intror Hne)) as [z Hz].
  exists z. now apply resolve_detail_at.
Qed.

Lemma size_delete_Some (m : gmap Z (Z * text)) (k : Z) (r : Z * text) :
  m !! k = Some r -> size m = S (size (delete k m)).
Proof.
  intros Hk. rewrite <- (insert_delete_id m k r Hk) at 1.
  apply map_size_insert_None, lookup_delete_eq.
Qed.

Lemma empty_name_not_ok (d : list (text * value)) (n : text) :
  dict_get "name" d = Some (VStr "") -> ~ name_ok d n.
Proof.
  intros Hd (v & t & Hv & Ht & Hn & Hne & _). rewrite Hd in Hv.
  injection Hv as <-. injection Ht as <-.
  apply strip_trimmed in Hn. now subst n.
Qed.

Lemma no_number_not_ok (d : list (text * value)) (a : Z) :
  (forall v, dict_get "age" d = Some v -> forall z, ~ age_reads v z) ->
  ~ age_ok d a.
Proof. intros Hd (v & Hv & Ha & _). exact (Hd v Hv a Ha). Qed.

(** ** The claims *)

(** C1 (amended).  A POST to /users/create is answered 201 exactly when the
    decoded body is an object whose [name] is a string or a number (an integer or
    a fractional number, taken as the text Python prints for it) that,
    trimmed of surrounding white space, is non-empty, at most 100
    characters long and free of NUL and of surrogate code points, and
    whose [age] is an integer, or a string of at most 1000 characters or
    a fractional number that reads as an integer once an all-zero
    fraction is cut off, within the range of the integer column; it is
    answered 400 exactly when not.  The data of the answer to an object
    list messages under [name] exactly when its name is not as described,
    and under [age] exactly when its age is not: so for an empty [name],
    and so for an [age] that is absent or no integer. *)
Theorem create_user_accepts_iff (body : value) (db : DB) :
  let resp := (create_user (mkRequest "POST" body) db).2 in
  (status_code resp = HTTP_201_CREATED <-> acceptable body)
  /\ (status_code resp = HTTP_400_BAD_REQUEST <-> ~ acceptable body)
  /\ (forall d, body = VDict d ->
        (reports "name" resp <-> forall n, ~ name_ok d n)
        /\ (reports "age" resp <-> forall a, ~ age_ok d a)
        /\ (dict_get "name" d = Some (VStr "") ->
            status_code resp = HTTP_400_BAD_REQUEST /\ reports "name" resp)
        /\ ((forall v, dict_get "age" d = Some v ->
                        forall z, ~ age_reads v z) ->
            status_code resp = HTTP_400_BAD_REQUEST /\ reports "age" resp)).
Proof.
  cbn zeta. rewrite create_user_POST.
  destruct (is_valid body) as [vd | errors] eqn:Hv; cbn [snd status_code].
  - assert (Hacc : acceptable body) by (apply is_valid_acceptable; eauto).
    apply is_valid_inl in Hv as (d & -> & Hn & Ha).
    split; [now split |].
    split; [split; [discriminate | intros H; now contradiction H] |].
    intros d' [= <-]. split; [| split; [| split]].
    + split; [intros (msgs & _ & Hm); discriminate Hm |].
      intros Hbad. now contradiction (Hbad (v_name vd)).
    + split; [intros (msgs & _ & Hm); discriminate Hm |].
      intros Hbad. now contradiction (Hbad (v_age vd)).
    + intros Hd. now apply empty_name_not_ok with (n := v_name vd) in Hd.
    + intros Hd. now apply no_number_not_ok with (a := v_age vd) in Hd.
  - assert (Hrej : ~ acceptable body).
    { intros Hacc. apply is_valid_acceptable in Hacc as [vd Hvd]. congruence. }
    split; [split; [discriminate | intros Hacc; now contradiction Hrej] |].
    split; [now split |].
    intros d ->. cbn in Hv. split; [| split; [| split]].
    + now apply errors_report_name.
    + now apply errors_report_age.
    + intros Hd. split; [reflexivity |].
      apply (errors_report_name d); [assumption |].
      intros n. now apply empty_name_not_ok.
    + intros Hd. split; [reflexivity |].
      apply (errors_report_age d); [assumption |].
      intros a. now apply no_number_not_ok.
Qed.

(** C2.  When a POST to /users/create is given a body that passes
    validation, the 201 response carries the serialized record, and a GET
    of /users/{id}/ for the id in that response then returns, with status
    200, exactly the same serialized record. *)
Theorem post_then_get (body any : value) (vd : validated_data) (db : DB) :
  is_valid body = inl vd ->
  exists db' u,
    create_user (mkRequest "POST" body) db
    = (db', mkResponse (Data (to_representation u)) HTTP_201_CREATED)
    /\ response_field "id"
         (mkResponse (Data (to_representation u)) HTTP_201_CREATED)
       = Some (VInt (id u))
    /\ user_detail (mkRequest "GET" any) (id u) db'
       = (db', mkResponse (Data (to_representation u)) HTTP_200_OK).
Proof.
  intros Hv. rewrite create_user_POST, Hv. cbn.
  eexists _, _. split; [reflexivity |]. split; [reflexivity |].
  now rewrite (user_detail_GET any _ _ (v_age vd, v_name vd))
    by apply lookup_insert_eq.
Qed.

(** C3 (amended).  When the body fails validation, a POST to /users/create
    and a PUT to /users/{id}/ for an id present in the store return 400
    with the field errors, and the store is left exactly as it was. *)
Theorem validation_failure_atomic (body : value)
    (errors : list (text * list text)) (db : DB) :
  is_valid body = inr errors ->
  create_user (mkRequest "POST" body) db
  = (db, mkResponse (Data (errors_data errors)) HTTP_400_BAD_REQUEST)
  /\ forall user_id, is_Some (api_user db !! user_id) ->
       user_detail (mkRequest "PUT" body) user_id db
       = (db, mkResponse (Data (errors_data errors)) HTTP_400_BAD_REQUEST).
Proof.
  intros Hv. split.
  - now rewrite create_user_POST, Hv.
  - intros user_id [r Hr]. now rewrite (user_detail_PUT _ _ _ r Hr), Hv.
Qed.

(** C4.  For an id that is not in the store, GET, PUT and DELETE on
    /users/{id}/ answer 404 with an empty body and leave the store as it
    was, whatever the request body. *)
Theorem missing_id_is_404 (m : string) (body : value) (user_id : Z) (db : DB) :
  api_user db !! user_id = None ->
  m ∈ ["GET"; "PUT"; "DELETE"]%string ->
  user_detail (mkRequest m body) user_id db
  = (db, mkResponse Empty HTTP_404_NOT_FOUND).
Proof. intros Hnone Hm. now apply user_detail_missing. Qed.

(** C5.  For an id in the store, DELETE on /users/{id}/ answers 204 with an
    empty body; afterwards that id is gone, every other record is as it
    was, the store holds one record less, and a second DELETE on the same
    id answers 404. *)
Theorem delete_removes_one (body body' : value) (user_id : Z) (db : DB)
    (r : Z * text) :
  api_user db !! user_id = Some r ->
  exists db',
    user_detail (mkRequest "DELETE" body) user_id db
    = (db', mkResponse Empty HTTP_204_NO_CONTENT)
    /\ api_user db' !! user_id = None
    /\ (forall k, k <> user_id -> api_user db' !! k = api_user db !! k)
    /\ size (api_user db) = S (size (api_user db'))
    /\ length (objects_all db) = S (length (objects_all db'))
    /\ user_detail (mkRequest "DELETE" body') user_id db'
       = (db', mkResponse Empty HTTP_404_NOT_FOUND).
Proof.
  intros Hr. rewrite (user_detail_DELETE _ _ _ r Hr).
  eexists. split; [reflexivity |]. cbn [api_user].
  assert (Hgone : delete user_id (api_user db) !! user_id = None)
    by apply lookup_delete_eq.
  repeat split.
  - assumption.
  - intros k Hk. now apply lookup_delete_ne.
  - now apply size_delete_Some with r.
  - rewrite !objects_all_length. now apply size_delete_Some with r.
  - apply user_detail_missing; [repeat constructor | assumption].
Qed.

(** C6.  For an id in the store and a body that passes validation, PUT on
    /users/{id}/ answers 200 with the serialized updated record: the
    object with the id of the path under [id], the validated age under
    [age] and the validated name under [name]; the record under that id
    now has that age and name, and every other record is as it was. *)
Theorem put_updates_one (body : value) (vd : validated_data) (user_id : Z)
    (db : DB) (r : Z * text) :
  api_user db !! user_id = Some r ->
  is_valid body = inl vd ->
  exists db',
    user_detail (mkRequest "PUT" body) user_id db
    = (db', mkResponse
              (Data (VDict [("id", VInt user_id); ("age", VInt (v_age vd));
                            ("name", VStr (v_name vd))]))
              HTTP_200_OK)
    /\ api_user db' !! user_id = Some (v_age vd, v_name vd)
    /\ (forall k, k <> user_id -> api_user db' !! k = api_user db !! k)
    /\ size (api_user db') = size (api_user db)
    /\ api_user_seq db' = api_user_seq db.
Proof.
  intros Hr Hv. rewrite (user_detail_PUT _ _ _ r Hr), Hv.
  eexists. split; [reflexivity |]. cbn [api_user api_user_seq].
  repeat split.
  - apply lookup_insert_eq.
  - intros k Hk. now apply lookup_insert_ne.
  - apply map_size_insert_Some. now exists r.
Qed.

(** C7.  For a body that passes validation, POST to /users/create answers
    201 with the serialized record: the object with the id the store has
    generated under [id], the validated age under [age] and the validated
    name under [name].  That id was not in the store before, the store
    now holds the validated record under it, every other record is as it
    was, and the store holds one record more. *)
Theorem create_persists_one (body : value) (vd : validated_data) (db : DB) :
  is_valid body = inl vd ->
  exists db' k,
    create_user (mkRequest "POST" body) db
    = (db', mkResponse
              (Data (VDict [("id", VInt k); ("age", VInt (v_age vd));
                            ("name", VStr (v_name vd))]))
              HTTP_201_CREATED)
    /\ api_user db !! k = None
    /\ api_user db' !! k = Some (v_age vd, v_name vd)
    /\ (forall j, j <> k -> api_user db' !! j = api_user db !! j)
    /\ size (api_user db') = S (size (api_user db)).
Proof.
  intros Hv. rewrite create_user_POST, Hv.
  eexists _, _. split; [reflexivity |]. cbn [api_user].
  pose proof (last_key_fresh db) as Hfresh. repeat split.
  - assumption.
  - apply lookup_insert_eq.
  - intros j Hj. now apply lookup_insert_ne.
  - now apply map_size_insert_None.
Qed.

(** C8.  In every state of the store, GET on /users/ answers 200 with an
    array that holds, for each stored record and once for each, the object
    with its id under [id], its age under [age] and its name under
    [name], in the order of the ids (the empty array for the empty
    store), and leaves the store as it was. *)
Theorem get_users_lists_all (body : value) (db : DB) :
  exists users,
    get_users (mkRequest "GET" body) db
    = (db,
       mkResponse
         (Data (VList ((fun u => VDict [("id", VInt (id u));
                                        ("age", VInt (age u));
                                        ("name", VStr (name u))])
                       <$> users)))
         HTTP_200_OK)
    /\ (forall u, u ∈ users <-> api_user db !! id u = Some (age u, name u))
    /\ NoDup (id <$> users)
    /\ Sorted Z.le (id <$> users)
    /\ length users = size (api_user db)
    /\ (api_user db = ∅ -> users = []).
Proof.
  exists (objects_all db). split; [| split; [| split; [| split; [| split]]]].
  - unfold get_users.
    now rewrite api_view_handler by (vm_compute; repeat constructor).
  - apply objects_all_spec.
  - apply objects_all_ids_NoDup.
  - apply objects_all_ids_sorted.
  - apply objects_all_length.
  - intros Hempty. unfold objects_all. now rewrite Hempty, map_to_list_empty.
Qed.

(** C9.  Every request that reaches a view keeps the data-model invariant:
    afterwards every stored record still has an age in the integer range
    and a non-empty name of at most 100 characters, under an id the store
    has generated; ids present afterwards were present before or are new
    ones above every id handed out so far.  A PUT in particular leaves the
    set of ids as it was and answers with the id of the path, whatever the
    body holds, an [id] key included. *)
Theorem requests_keep_invariant (path : text) (request : Request)
    (db db' : DB) (resp : Response) :
  Inv db ->
  serve path request db = Some (db', resp) ->
  Inv db'
  /\ api_user_seq db <= api_user_seq db'
  /\ (forall k, is_Some (api_user db' !! k) ->
        is_Some (api_user db !! k) \/ api_user_seq db < k)
  /\ (forall user_id body db1 resp1,
        user_detail (mkRequest "PUT" body) user_id db = (db1, resp1) ->
        (forall k, is_Some (api_user db1 !! k) <-> is_Some (api_user db !! k))
        /\ (status_code resp1 = HTTP_200_OK ->
            response_field "id" resp1 = Some (VInt user_id))).
Proof.
  intros HInv Hserve. apply serve_step in Hserve.
  split; [now apply (step_Inv db) |].
  split; [now apply step_seq |].
  split; [intros k; now apply step_keys |].
  intros user_id body db1 resp1.
  destruct (api_user db !! user_id) as [r |] eqn:Hr.
  - rewrite (user_detail_PUT _ _ _ r Hr).
    destruct (is_valid body) as [vd | errors]; intros [= <- <-].
    + split; [| reflexivity]. intros k. cbn [api_user].
      destruct (decide (user_id = k)) as [<- | Hne].
      * rewrite lookup_insert_eq, Hr. split; eauto.
      * now rewrite lookup_insert_ne.
    + split; [reflexivity | discriminate].
  - rewrite user_detail_missing by (repeat constructor || assumption).
    intros [= <- <-]. split; [reflexivity | discriminate].
Qed.

(** C10 (amended).  On each endpoint, a request whose method, compared
    without regard to case, is neither one the endpoint is declared with
    nor OPTIONS is answered 405 and leaves the store as it was; an OPTIONS
    request is answered 200 with the view's metadata and leaves the store
    as it was. *)
Theorem other_methods_not_allowed (path : text) (allowed : list string)
    (request : Request) (db : DB) :
  endpoint path allowed ->
  Py.lower (method request) ∉ Py.lower <$> allowed ->
  (Py.lower (method request) <> "options"%string ->
   serve path request db = Some (db, method_not_allowed (method request))
   /\ status_code (method_not_allowed (method request))
      = HTTP_405_METHOD_NOT_ALLOWED)
  /\ (Py.lower (method request) = "options"%string ->
      serve path request db = Some (db, mkResponse Metadata HTTP_200_OK)).
Proof.
  intros Hep Hm.
  assert (Hview : exists func,
            serve path request db = Some (api_view allowed func request db)).
  { destruct Hep as [| | digits Hne Hall].
    - eexists. reflexivity.
    - eexists. reflexivity.
    - destruct (resolve_detail digits Hne Hall) as [user_id Hres].
      unfold serve. rewrite Hres. eexists. reflexivity. }
  destruct Hview as [func ->]. split.
  - intros Hopt. now rewrite api_view_not_allowed.
  - intros Hopt. now rewrite api_view_options.
Qed.

(** ** Further properties of the views *)

Ltac kept := apply outcome_kept; vm_compute; repeat constructor.

Lemma api_view_outcome (names : list string)
    (func : Request -> DB -> DB * returned) (request : Request) (db : DB) :
  (forall r, (func request db).2 = Return r ->
     outcome db (func request db).1 r) ->
  ((func request db).2 = ReturnNone -> (func request db).1 = db) ->
  outcome db (api_view names func request db).1
             (api_view names func request db).2.
Proof.
  intros Hret Hnone. unfold api_view.
  case_bool_decide; [| case_bool_decide; cbn; kept].
  destruct (func request db) as [db' [r |]]; cbn in *.
  - now apply Hret.
  - rewrite Hnone by reflexivity. kept.
Qed.

Lemma get_users_outcome (request : Request) (db : DB) :
  outcome db (get_users request db).1 (get_users request db).2.
Proof.
  unfold get_users. apply api_view_outcome; cbn; [| discriminate].
  intros r [= <-]. kept.
Qed.

Lemma create_user_outcome (request : Request) (db : DB) :
  outcome db (create_user request db).1 (create_user request db).2.
Proof.
  unfold create_user. apply api_view_outcome.
  - destruct (is_valid (data request)) as [vd | errors] eqn:Hv; cbn;
      intros r [= <-]; [| kept].
    now apply (outcome_created db (data request)).
  - destruct (is_valid (data request)); discriminate.
Qed.

Lemma user_detail_outcome (request : Request) (user_id : Z) (db : DB) :
  outcome db (user_detail request user_id db).1
             (user_detail request user_id db).2.
Proof.
  unfold user_detail. apply api_view_outcome; unfold objects_get;
    destruct (api_user db !! user_id) as [row |] eqn:Hrow; cbn;
    try discriminate; try (intros r [= <-]; kept);
    destruct (String.eqb (method request) "GET"); cbn;
    try discriminate; try (intros r [= <-]; kept);
    destruct (String.eqb (method request) "PUT"); cbn.
  - destruct (is_valid (data request)) as [vd | errors] eqn:Hv; cbn;
      intros r [= <-]; [| kept].
    now apply (outcome_updated db (data request) vd user_id row).
  - destruct (String.eqb (method request) "DELETE"); cbn;
      intros r [= <-].
    now apply (outcome_deleted db user_id row).
  - destruct (is_valid (data request)); discriminate.
  - now destruct (String.eqb (method request) "DELETE").
Qed.

Lemma serve_outcome (path : text) (request : Request) (db db' : DB)
    (resp : Response) :
  serve path request db = Some (db', resp) -> outcome db db' resp.
Proof.
  unfold serve. destruct (resolve path) as [view |] eqn:Hview;
    [| discriminate].
  cbn. intros [= Hrun].
  apply resolve_cases in Hview as [-> | [-> | [user_id ->]]].
  - pose proof (get_users_outcome request db) as H. now rewrite Hrun in H.
  - pose proof (create_user_outcome request db) as H. now rewrite Hrun in H.
  - pose proof (user_detail_outcome request user_id db) as H.
    now rewrite Hrun in H.
Qed.

Lemma lstrip_head (p : Z -> bool) (s : text) :
  Py.lstrip_by p s = ""
  \/ exists c r, Py.lstrip_by p s = c :: r /\ p c = false.
Proof.
  induction s as [| c s IH]; [now left |]. cbn.
  destruct (p c) eqn:Hc; [assumption |]. right. now exists c, s.
Qed.

Lemma rstrip_keeps_head (p : Z -> bool) (c : Z) (s : text) :
  p c = false -> exists r, Py.rstrip_by p (c :: s) = c :: r.
Proof.
  intros Hc. cbn. destruct (Py.rstrip_by p s) as [| c' r];
    [rewrite Hc |]; eauto.
Qed.

Lemma rstrip_idem (p : Z -> bool) (s : text) :
  Py.rstrip_by p (Py.rstrip_by p s) = Py.rstrip_by p s.
Proof.
  induction s as [| c s IH]; [reflexivity |]. cbn.
  destruct (Py.rstrip_by p s) as [| c' r] eqn:Hr.
  - destruct (p c) eqn:Hc; [reflexivity |]. cbn. now rewrite Hc.
  - cbn [Py.rstrip_by] in *. now rewrite IH.
Qed.

Lemma strip_idem (s : text) : Py.strip (Py.strip s) = Py.strip s.
Proof.
  unfold Py.strip.
  destruct (lstrip_head Py.unicode_isspace s) as [-> | (c & r & -> & Hc)];
    [reflexivity |].
  destruct (rstrip_keeps_head Py.unicode_isspace c r Hc) as [r' Hr'].
  rewrite Hr'. cbn [Py.lstrip_by]. rewrite Hc, <- Hr'. apply rstrip_idem.
Qed.

Lemma is_valid_representation (body : value) (vd : validated_data) (k : Z) :
  is_valid body = inl vd ->
  is_valid (to_representation (mkUser k (v_age vd) (v_name vd))) = inl vd.
Proof.
  intros H. apply is_valid_inl in H as (d & -> & Hn & Ha).
  apply is_valid_inl. eexists. split; [reflexivity |].
  destruct Hn as (v & t & _ & _ & Hstrip & Hne & Hlen & Hnul & Hsur).
  destruct Ha as (va & _ & _ & Hrange). split.
  - exists (VStr (v_name vd)), (v_name vd).
    split; [reflexivity |]. split; [reflexivity |].
    split; [| now repeat split].
    apply strip_trimmed in Hstrip. apply strip_trimmed.
    rewrite <- Hstrip. apply strip_idem.
  - exists (VInt (v_age vd)). now repeat split.
Qed.

Lemma create_user_changes (request : Request) (db : DB) :
  (create_user request db).1 <> db ->
  Py.lower (method request) = "post"%string.
Proof.
  unfold create_user, api_view. case_bool_decide as Hm.
  - intros _. apply list_elem_of_fmap in Hm as (m & -> & Hm).
    apply list_elem_of_singleton in Hm as ->. reflexivity.
  - case_bool_decide; cbn; intros Hne; now contradiction Hne.
Qed.

Lemma user_detail_changes (request : Request) (user_id : Z) (db : DB) :
  (user_detail request user_id db).1 <> db ->
  method request = "PUT"%string \/ method request = "DELETE"%string.
Proof.
  unfold user_detail, api_view. case_bool_decide as Hm.
  - unfold objects_get. destruct (api_user db !! user_id) as [row |]; cbn;
      [| intros Hne; now contradiction Hne].
    destruct (String.eqb_spec (method request) "GET"); cbn;
      [intros Hne; now contradiction Hne |].
    destruct (String.eqb_spec (method request) "PUT"); [now left |].
    destruct (String.eqb_spec (method request) "DELETE"); [now right |].
    cbn. intros Hne; now contradiction Hne.
  - case_bool_decide; cbn; intros Hne; now contradiction Hne.
Qed.

Lemma get_users_keeps (request : Request) (db : DB) :
  (get_users request db).1 = db.
Proof.
  unfold get_users, api_view. repeat (case_bool_decide; cbn); reflexivity.
Qed.

(** X1.  What a request's status says about the store: after a 201 the
    table holds one row more, after a 204 one row less, and after any
    other status as many as before. *)
Theorem status_tells_store_change (path : text) (request : Request)
    (db db' : DB) (resp : Response) :
  serve path request db = Some (db', resp) ->
  (status_code resp = HTTP_201_CREATED ->
   size (api_user db') = S (size (api_user db)))
  /\ (status_code resp = HTTP_204_NO_CONTENT ->
      size (api_user db) = S (size (api_user db')))
  /\ (status_code resp <> HTTP_201_CREATED ->
      status_code resp <> HTTP_204_NO_CONTENT ->
      size (api_user db') = size (api_user db)).
Proof.
  intros Hserve. apply serve_outcome in Hserve.
  destruct Hserve as [r Hr | body vd Hv | body vd k r Hv Hk | k r Hk];
    cbn [status_code api_user].
  - split; [| split]; try reflexivity.
    + intros Heq. rewrite Heq in Hr. vm_compute in Hr.
      repeat (apply elem_of_cons in Hr as [Hr | Hr]; [discriminate Hr |]).
      inversion Hr.
    + intros Heq. rewrite Heq in Hr. vm_compute in Hr.
      repeat (apply elem_of_cons in Hr as [Hr | Hr]; [discriminate Hr |]).
      inversion Hr.
  - split; [| split].
    + intros _. apply map_size_insert_None, last_key_fresh.
    + discriminate.
    + intros H. now contradiction H.
  - split; [| split]; try discriminate.
    intros _ _. apply map_size_insert_Some. now exists r.
  - split; [| split]; try discriminate.
    + intros _. now apply size_delete_Some with r.
    + intros _ H. now contradiction H.
Qed.

(** X2.  Only POST, PUT and DELETE change the store: when a request that
    reaches a view leaves the store different from what it was, its method
    is PUT or DELETE, or POST in some spelling of upper and lower case. *)
Theorem only_writes_change_store (path : text) (request : Request)
    (db db' : DB) (resp : Response) :
  serve path request db = Some (db', resp) ->
  db' <> db ->
  Py.lower (method request) = "post"%string
  \/ method request = "PUT"%string \/ method request = "DELETE"%string.
Proof.
  unfold serve. destruct (resolve path) as [view |] eqn:Hview;
    [| discriminate].
  cbn. intros [= Hrun] Hne.
  apply resolve_cases in Hview as [-> | [-> | [user_id ->]]].
  - pose proof (get_users_keeps request db) as H. rewrite Hrun in H.
    now contradiction Hne.
  - left. apply (create_user_changes request db). now rewrite Hrun.
  - right. apply (user_detail_changes request user_id db). now rewrite Hrun.
Qed.

(** X3.  The detail view ends without a response (and the request as a 500)
    exactly when the id is in the store and the method is one of GET, PUT
    and DELETE spelled otherwise than in capitals; for a method in capitals
    that never happens. *)
Theorem user_detail_500_iff (request : Request) (user_id : Z) (db : DB) :
  status_code (user_detail request user_id db).2
  = HTTP_500_INTERNAL_SERVER_ERROR
  <-> is_Some (api_user db !! user_id)
      /\ Py.lower (method request)
         ∈ Py.lower <$> ["GET"; "PUT"; "DELETE"]%string
      /\ method request ∉ ["GET"; "PUT"; "DELETE"]%string.
Proof.
  unfold user_detail, api_view. case_bool_decide as Hm.
  - unfold objects_get. destruct (api_user db !! user_id) as [row |]; cbn.
    2:{ split; [discriminate | intros ([? [=]] & _)]. }
    destruct (String.eqb_spec (method request) "GET") as [-> | Hg]; cbn.
    { split; [discriminate | intros (_ & _ & Hn)].
      contradiction Hn. repeat constructor. }
    destruct (String.eqb_spec (method request) "PUT") as [-> | Hp]; cbn.
    { destruct (is_valid _); cbn;
        (split; [discriminate | intros (_ & _ & Hn)]);
        contradiction Hn; repeat constructor. }
    destruct (String.eqb_spec (method request) "DELETE") as [-> | Hd]; cbn.
    { split; [discriminate | intros (_ & _ & Hn)].
      contradiction Hn. repeat constructor. }
    split; [intros _ | reflexivity].
    split; [eauto |]. split; [assumption |].
    intros Hn. repeat (apply elem_of_cons in Hn as [Hn | Hn]; [congruence |]).
    inversion Hn.
  - case_bool_decide; cbn;
      (split; [discriminate | intros (_ & Hn & _); now contradiction Hm]).
Qed.

(** X4.  The list view and the detail view agree: the array that GET on
    /users/ returns holds exactly the objects that GET on /users/{id}/
    returns with status 200, over all ids. *)
Theorem detail_agrees_with_list (any : value) (db : DB) :
  exists users,
    get_users (mkRequest "GET" any) db
    = (db, mkResponse (Data (VList users)) HTTP_200_OK)
    /\ forall obj,
         obj ∈ users
         <-> exists user_id,
               user_detail (mkRequest "GET" any) user_id db
               = (db, mkResponse (Data obj) HTTP_200_OK).
Proof.
  exists (to_representation <$> objects_all db). split.
  - unfold get_users.
    now rewrite api_view_handler by (vm_compute; repeat constructor).
  - intros obj. rewrite list_elem_of_fmap. split.
    + intros (u & -> & Hu). apply objects_all_spec in Hu. exists (id u).
      rewrite (user_detail_GET any _ _ _ Hu). now destruct u.
    + intros (user_id & Hget).
      destruct (api_user db !! user_id) as [r |] eqn:Hr.
      * rewrite (user_detail_GET any _ _ r Hr) in Hget.
        injection Hget as <-. eexists. split; [reflexivity |].
        apply objects_all_spec. cbn. now destruct r.
      * rewrite user_detail_missing in Hget
          by (repeat constructor || assumption).
        discriminate Hget.
Qed.

(** X5.  A PUT settles: for an id in the store and a body that passes
    validation, a GET of the id right after the PUT gets the very response
    of the PUT, and repeating the PUT changes neither the store nor the
    response. *)
Theorem put_settles (body any : value) (vd : validated_data) (user_id : Z)
    (db : DB) (r : Z * text) :
  api_user db !! user_id = Some r ->
  is_valid body = inl vd ->
  let after := user_detail (mkRequest "PUT" body) user_id db in
  user_detail (mkRequest "GET" any) user_id after.1 = after
  /\ user_detail (mkRequest "PUT" body) user_id after.1 = after.
Proof.
  intros Hr Hv. cbn zeta. rewrite (user_detail_PUT _ _ _ r Hr), Hv. cbn [fst].
  assert (Hnow : <[user_id := (v_age vd, v_name vd)]> (api_user db) !! user_id
                 = Some (v_age vd, v_name vd)) by apply lookup_insert_eq.
  split.
  - now rewrite (user_detail_GET any _ _ (v_age vd, v_name vd)).
  - rewrite (user_detail_PUT _ _ _ (v_age vd, v_name vd)) by assumption.
    rewrite Hv. cbn [api_user api_user_seq]. now rewrite insert_insert_eq.
Qed.

(** X6.  A POST undone: when a body passes validation, deleting the id that
    the POST returned is answered 204 and leaves the rows of the table
    exactly as they were before the POST. *)
Theorem post_then_delete (body any : value) (vd : validated_data) (db : DB) :
  is_valid body = inl vd ->
  exists db1 u db2,
    create_user (mkRequest "POST" body) db
    = (db1, mkResponse (Data (to_representation u)) HTTP_201_CREATED)
    /\ user_detail (mkRequest "DELETE" any) (id u) db1
       = (db2, mkResponse Empty HTTP_204_NO_CONTENT)
    /\ api_user db2 = api_user db.
Proof.
  intros Hv. rewrite create_user_POST, Hv. cbn.
  eexists _, _, _. split; [reflexivity |]. cbn [id].
  rewrite (user_detail_DELETE any _ _ (v_age vd, v_name vd))
    by apply lookup_insert_eq.
  split; [reflexivity |]. cbn [api_user].
  apply delete_insert_id, last_key_fresh.
Qed.

(** X7.  A body that is not a JSON object (null, a boolean, a number, a
    string, an array) fails validation as a whole: POST answers 400 with
    one message under [non_field_errors] and nothing else, and leaves the
    store as it was. *)
Theorem non_object_body_rejected (body : value) (db : DB) :
  (forall d, body <> VDict d) ->
  exists msg,
    create_user (mkRequest "POST" body) db
    = (db,
       mkResponse (Data (VDict [("non_field_errors", VList [VStr msg])]))
                  HTTP_400_BAD_REQUEST).
Proof.
  intros Hnd. rewrite create_user_POST.
  destruct body as [| b | z | repr | t | l | d]; cbn;
    try (eexists; reflexivity).
  now contradiction (Hnd d).
Qed.

(** X8.  What the API returns can be sent back: a PUT whose body is the
    serialized form of a row that came out of validation -- under any id
    in the body -- passes validation again, answers 200 with that row
    under the id of the path, and leaves the store exactly as it was. *)
Theorem put_back_is_noop (body : value) (vd : validated_data)
    (user_id body_id : Z) (db : DB) :
  is_valid body = inl vd ->
  api_user db !! user_id = Some (v_age vd, v_name vd) ->
  user_detail
    (mkRequest "PUT"
       (to_representation (mkUser body_id (v_age vd) (v_name vd))))
    user_id db
  = (db,
     mkResponse
       (Data (to_representation (mkUser user_id (v_age vd) (v_name vd))))
       HTTP_200_OK).
Proof.
  intros Hv Hrow. rewrite (user_detail_PUT _ _ _ _ Hrow).
  rewrite (is_valid_representation body vd body_id Hv).
  rewrite (insert_id _ _ _ Hrow). now destruct db.
Qed.

(** ** Further properties of the URL configuration *)

Lemma strip_prefix_Some (p s r : text) :
  strip_prefix p s = Some r -> s = p ++ r.
Proof.
  revert s. induction p as [| a p IH]; intros s; cbn [strip_prefix].
  - now intros [= ->].
  - destruct s as [| b s]; [discriminate |].
    destruct (Z.eqb_spec a b) as [<- | _]; [| discriminate].
    intros H. apply IH in H as ->. reflexivity.
Qed.

Lemma match_route_lit_path (p s : text) (kwargs : list (text * Z)) :
  match_route [Lit p] s = Some kwargs -> s = p.
Proof.
  cbn [match_route]. intros H. apply bind_Some in H as (r & Hr & H).
  apply strip_prefix_Some in Hr as ->.
  destruct r as [| c r]; [apply app_nil_r | discriminate H].
Qed.

Lemma take_digits_inv (s : text) (acc : Z) (seen : bool) (z : Z)
    (rest : text) :
  take_digits acc seen s = Some (z, rest) ->
  exists digits, s = digits ++ rest
    /\ Py.all_chars Py.is_digit digits = true
    /\ (seen = false -> digits <> "").
Proof.
  revert acc seen. induction s as [| c s IH]; intros acc seen; cbn [take_digits].
  - destruct seen; [| discriminate]. intros [= <- <-]. exists "".
    repeat split. discriminate.
  - destruct (Py.digit_value c) as [d |] eqn:Hd.
    + intros H. apply IH in H as (digits & -> & Hall & _).
      exists (c :: digits). repeat split; [| discriminate].
      cbn. unfold Py.is_digit at 1. now rewrite Hd.
    + destruct seen; [| discriminate]. intros [= <- <-]. exists "".
      repeat split. discriminate.
Qed.

Lemma match_route_detail_path (s : text) (kwargs : list (text * Z)) :
  match_route [Lit "users/"; IntConverter "user_id"; Lit "/"] s = Some kwargs ->
  exists digits, s = "users/" ++ digits ++ "/"
    /\ digits <> "" /\ Py.all_chars Py.is_digit digits = true.
Proof.
  cbn [match_route]. intros H.
  apply bind_Some in H as (r & Hr & H).
  apply strip_prefix_Some in Hr as ->.
  apply bind_Some in H as ([z rest] & Hz & H).
  apply bind_Some in H as (kw & Hkw & _).
  apply match_route_lit_path in Hkw as ->.
  apply take_digits_inv in Hz as (digits & -> & Hall & Hne).
  exists digits. auto.
Qed.

(** Decimal numerals: reading what [str()] prints. *)
Lemma take_digits_uint_acc (d : Decimal.uint) (acc : positive) (rest : text) :
  take_digits (Z.pos acc) true (Py.latin1 (NilEmpty.string_of_uint d) ++ rest)
  = take_digits (Z.pos (Pos.of_uint_acc d acc)) true rest.
Proof.
  revert acc. induction d as [| d IH | d IH | d IH | d IH | d IH | d IH
                              | d IH | d IH | d IH | d IH]; intros acc;
    [reflexivity | ..];
    cbn [NilEmpty.string_of_uint Pos.of_uint_acc Py.latin1 app take_digits];
    match goal with
    | |- context [Py.digit_value ?c] =>
        let v := eval vm_compute in (Py.digit_value c) in
        change (Py.digit_value c) with v
    end;
    cbv iota beta; rewrite <- IH; f_equal; lia.
Qed.

Lemma take_digits_uint (d : Decimal.uint) (seen : bool) (rest : text) :
  take_digits 0 seen (Py.latin1 (NilEmpty.string_of_uint d) ++ rest)
  = take_digits (Z.of_uint d)
      (match d with Decimal.Nil => seen | _ => true end) rest.
Proof.
  revert seen. unfold Z.of_uint.
  induction d as [| d IH | d IH | d IH | d IH | d IH | d IH
                  | d IH | d IH | d IH | d IH]; intros seen;
    [reflexivity | ..];
    cbn [NilEmpty.string_of_uint Pos.of_uint Py.latin1 app take_digits];
    match goal with
    | |- context [Py.digit_value ?c] =>
        let v := eval vm_compute in (Py.digit_value c) in
        change (Py.digit_value c) with v
    end;
    cbv iota beta.
  1:{ change (10 * 0 + 0) with 0. rewrite IH. now destruct d. }
  all: match goal with
       | |- take_digits ?a _ _ = _ =>
           let v := eval vm_compute in a in change a with v
       end; apply take_digits_uint_acc.
Qed.

Lemma str_of_int_nonneg (n : Z) :
  0 <= n ->
  exists d, Py.str_of_int n = Py.latin1 (NilEmpty.string_of_uint d)
    /\ d <> Decimal.Nil /\ Z.of_uint d = n.
Proof.
  intros Hn. unfold Py.str_of_int. pose proof (DecimalZ.of_to n) as Hof.
  destruct n as [| p | p]; [| | lia]; cbn in *.
  - now exists (Decimal.D0 Decimal.Nil).
  - exists (Pos.to_uint p). pose proof (Unsigned.to_uint_nonnil p) as Hnil.
    repeat split; try assumption. now destruct (Pos.to_uint p).
Qed.

Lemma take_digits_str_of_int (n : Z) :
  0 <= n -> take_digits 0 false (Py.str_of_int n ++ "/") = Some (n, "/").
Proof.
  intros Hn. destruct (str_of_int_nonneg n Hn) as (d & -> & Hnil & <-).
  rewrite take_digits_uint. now destruct d.
Qed.

Lemma resolve_users_other (c : Z) (t : text) :
  Py.digit_value c = None -> (99 =? c) = false ->
  resolve ("/api/users/" ++ c :: t) = None.
Proof.
  intros Hd Hc.
  assert (Hcreate : strip_prefix "users/create" ("users/" ++ c :: t)
                    = None).
  { change "users/create" with ("users/" ++ "create").
    rewrite strip_prefix_app. cbn [strip_prefix]. now rewrite Hc. }
  unfold resolve.
  change ("/api/users/" ++ c :: t)
    with ("/api/" ++ ("users/" ++ c :: t)).
  rewrite strip_prefix_whole. cbn [mbind option_bind]. unfold urlpatterns.
  cbn [resolve_in match_route].
  rewrite Hcreate, !strip_prefix_whole.
  cbn [mbind option_bind match_route take_digits]. now rewrite Hd.
Qed.

(** X9.  The shape of the routed paths: a path that the URL configuration
    routes to a view is /api/users/, /api/users/create, or /api/users/
    followed by one or more decimal digits and a slash, so that a path
    without the closing slash, with a sign or with a letter in the id
    reaches no view; and each path of that shape whose digits are no more
    than the 4300 that [int()] reads is routed to a view. *)
Theorem resolve_iff_endpoint (path : text) :
  (is_Some (resolve path) -> exists allowed, endpoint path allowed)
  /\ (forall allowed,
        endpoint path allowed ->
        (forall digits, path = "/api/users/" ++ digits ++ "/" ->
                        Py.len digits <= 4300) ->
        is_Some (resolve path)).
Proof.
  split.
  - intros [view Hview]. unfold resolve in Hview.
    apply bind_Some in Hview as (s & Hs & Hview).
    apply strip_prefix_Some in Hs as ->.
    unfold urlpatterns in Hview. cbn [resolve_in] in Hview.
    destruct (match_route [Lit "users/"] s) as [kw |] eqn:E1.
    { apply match_route_lit_path in E1 as ->. eexists. constructor. }
    destruct (match_route [Lit "users/create"] s) as [kw |] eqn:E2.
    { apply match_route_lit_path in E2 as ->. eexists. constructor. }
    destruct (match_route [Lit "users/"; IntConverter "user_id"; Lit "/"] s)
      as [kw |] eqn:E3; [| discriminate].
    apply match_route_detail_path in E3 as (digits & -> & Hne & Hall).
    eexists. now apply (endpoint_detail digits).
  - intros allowed Hep _. destruct Hep as [| | digits Hne Hall].
    + eexists. reflexivity.
    + eexists. reflexivity.
    + destruct (resolve_detail digits Hne Hall) as [user_id ->]. eauto.
Qed.

(** X10.  The URL of a record: for an id that is not negative, the path
    /api/users/{id}/ written with the id as Python prints it is routed to
    the detail view with that very id; written with a negative id it is
    routed nowhere. *)
Theorem detail_url_round_trip (n : Z) :
  (0 <= n ->
   resolve ("/api/users/" ++ Py.str_of_int n ++ "/")
   = Some (fun request => user_detail request n))
  /\ (n < 0 -> resolve ("/api/users/" ++ Py.str_of_int n ++ "/") = None).
Proof.
  split; intros Hn.
  - now apply resolve_detail_at, take_digits_str_of_int.
  - destruct n as [| p | p]; [lia | lia |].
    unfold Py.str_of_int. cbn [Z.to_int NilZero.string_of_int Py.latin1 app].
    now apply resolve_users_other.
Qed.

(** X11.  POST then GET over HTTP: on a store whose key counter is not
    negative, a POST to /api/users/create with a body that passes
    validation is answered 201 with the serialized record, and a GET of
    the path /api/users/{id}/ written with the id of that record is
    answered 200 with the same serialized record. *)
Theorem post_then_get_over_http (body any : value) (vd : validated_data)
    (db : DB) :
  is_valid body = inl vd ->
  0 <= api_user_seq db ->
  exists db1 u,
    serve "/api/users/create" (mkRequest "POST" body) db
    = Some (db1, mkResponse (Data (to_representation u)) HTTP_201_CREATED)
    /\ serve ("/api/users/" ++ Py.str_of_int (id u) ++ "/")
         (mkRequest "GET" any) db1
       = Some (db1, mkResponse (Data (to_representation u)) HTTP_200_OK).
Proof.
  intros Hv Hseq.
  assert (Hcreate : forall request,
            serve "/api/users/create" request db
            = Some (create_user request db)) by reflexivity.
  exists (serializer_create vd db).1, (serializer_create vd db).2. split.
  - now rewrite Hcreate, create_user_POST, Hv.
  - unfold serve, serializer_create, objects_create. cbn [fst snd id].
    rewrite (resolve_detail_at _ (last_key db + 1)).
    2:{ apply take_digits_str_of_int. pose proof (last_key_seq db). lia. }
    cbn [fmap option_fmap option_map].
    rewrite (user_detail_GET any _ _ (v_age vd, v_name vd))
      by apply lookup_insert_eq.
    reflexivity.
Qed.

(** ** The command [create_sample_users] *)

Lemma name_exists_spec (n : text) (db : DB) :
  name_exists n db = true <-> exists k a, api_user db !! k = Some (a, n).
Proof.
  unfold name_exists. rewrite existsb_exists. split.
  - intros (u & Hin & Heq). apply bool_decide_eq_true_1 in Heq as <-.
    apply list_elem_of_In, objects_all_spec in Hin. eauto.
  - intros (k & a & Hk). exists (mkUser k a n).
    split; [| now apply bool_decide_eq_true_2].
    now apply list_elem_of_In, objects_all_spec.
Qed.

Lemma name_exists_create (n m : text) (a : Z) (db : DB) :
  name_exists n (objects_create a m db).1 = true
  <-> n = m \/ name_exists n db = true.
Proof.
  rewrite !name_exists_spec. unfold objects_create. cbn [fst api_user].
  split.
  - intros (k & b & Hk). apply lookup_insert_Some in Hk as [[_ Heq] | [_ Hk]].
    + left. congruence.
    + right. eauto.
  - intros [-> | (k & b & Hk)].
    + exists (last_key db + 1), a. apply lookup_insert_eq.
    + exists k, b. rewrite lookup_insert_ne; [assumption |].
      intros <-. rewrite last_key_fresh in Hk. discriminate.
Qed.

Lemma add_if_absent_cases (warn : bool) (st : command_state)
    (item : text * Z) :
  let st' := add_if_absent warn st item in
  (name_exists item.1 st.1.1 = true /\ st'.1.1 = st.1.1 /\ st'.1.2 = st.1.2)
  \/ (name_exists item.1 st.1.1 = false
      /\ st'.1.1 = (objects_create item.2 item.1 st.1.1).1
      /\ st'.1.2 = st.1.2 + 1).
Proof.
  destruct st as [[db c] out]. cbn. unfold add_if_absent.
  destruct (name_exists item.1 db); cbn; [left | right; auto].
  now destruct warn.
Qed.

Lemma fold_keeps_rows (warn : bool) (items : list (text * Z))
    (st : command_state) (k : Z) (r : Z * text) :
  api_user st.1.1 !! k = Some r ->
  api_user (foldl (add_if_absent warn) st items).1.1 !! k = Some r.
Proof.
  revert st. induction items as [| item items IH]; intros st Hk; [assumption |].
  cbn [foldl]. apply IH.
  destruct (add_if_absent_cases warn st item) as [(_ & -> & _) | (_ & -> & _)];
    [assumption |].
  unfold objects_create. cbn [fst api_user].
  rewrite lookup_insert_ne; [assumption |].
  intros <-. rewrite last_key_fresh in Hk. discriminate.
Qed.

Lemma fold_new_rows (warn : bool) (items : list (text * Z))
    (st : command_state) (k : Z) (r : Z * text) :
  api_user (foldl (add_if_absent warn) st items).1.1 !! k = Some r ->
  api_user st.1.1 !! k = Some r \/ (r.2, r.1) ∈ items.
Proof.
  revert st. induction items as [| item items IH]; intros st Hk; [now left |].
  cbn [foldl] in Hk. apply IH in Hk as [Hk | Hin];
    [| right; now apply list_elem_of_further].
  destruct (add_if_absent_cases warn st item)
    as [(_ & Hdb & _) | (_ & Hdb & _)]; rewrite Hdb in Hk; [now left |].
  unfold objects_create in Hk. cbn [fst api_user] in Hk.
  apply lookup_insert_Some in Hk as [[_ <-] | [_ Hk]]; [| now left].
  right. destruct item. apply list_elem_of_here.
Qed.

Lemma fold_count (warn : bool) (items : list (text * Z))
    (st : command_state) :
  let st' := foldl (add_if_absent warn) st items in
  objects_count st'.1.1 = objects_count st.1.1 + (st'.1.2 - st.1.2)
  /\ st.1.2 <= st'.1.2.
Proof.
  revert st. induction items as [| item items IH]; intros st; cbn zeta;
    cbn [foldl]; [split; lia |].
  destruct (IH (add_if_absent warn st item)) as [IH1 IH2].
  destruct (add_if_absent_cases warn st item)
    as [(_ & Hdb & Hc) | (_ & Hdb & Hc)]; rewrite Hdb, Hc in *;
    [split; lia |].
  assert (Hsize : objects_count (objects_create item.2 item.1 st.1.1).1
                  = objects_count st.1.1 + 1).
  { unfold objects_count, objects_create. cbn [fst api_user].
    rewrite map_size_insert_None by apply last_key_fresh. lia. }
  split; lia.
Qed.

Lemma fold_names (warn : bool) (items : list (text * Z))
    (st : command_state) (n : text) :
  name_exists n (foldl (add_if_absent warn) st items).1.1 = true
  <-> name_exists n st.1.1 = true \/ n ∈ items.*1.
Proof.
  revert st. induction items as [| item items IH]; intros st.
  - cbn. split; [now left | intros [H | H]; [assumption | inversion H]].
  - cbn [foldl]. rewrite IH, fmap_cons, elem_of_cons.
    destruct (add_if_absent_cases warn st item)
      as [(Hex & -> & _) | (Hex & -> & _)].
    + split; [tauto |]. intros [H | [-> | H]]; auto.
    + rewrite name_exists_create. tauto.
Qed.

Lemma fold_skips (warn : bool) (items : list (text * Z))
    (st : command_state) :
  (forall item, item ∈ items -> name_exists item.1 st.1.1 = true) ->
  (foldl (add_if_absent warn) st items).1 = st.1.
Proof.
  revert st. induction items as [| item items IH]; intros st Hall;
    [reflexivity |].
  cbn [foldl].
  destruct (add_if_absent_cases warn st item)
    as [(_ & Hdb & Hc) | (Hex & _ & _)].
  - rewrite IH.
    + destruct (add_if_absent warn st item) as [[db' c'] out'].
      destruct st as [[db c] out]. cbn in *. congruence.
    + intros it Hit. rewrite Hdb. apply Hall. now apply list_elem_of_further.
  - rewrite Hall in Hex by apply list_elem_of_here. discriminate.
Qed.

Lemma fold_fresh (warn : bool) (items : list (text * Z))
    (st : command_state) :
  NoDup items.*1 ->
  (forall n, n ∈ items.*1 -> name_exists n st.1.1 = false) ->
  (foldl (add_if_absent warn) st items).1.2
  = st.1.2 + Z.of_nat (length items).
Proof.
  revert st. induction items as [| item items IH]; intros st Hnd Hnew.
  - cbn. lia.
  - cbn [foldl]. rewrite fmap_cons in Hnd, Hnew.
    apply NoDup_cons in Hnd as [Hnotin Hnd].
    destruct (add_if_absent_cases warn st item)
      as [(Hex & _ & _) | (_ & Hdb & Hc)].
    + rewrite Hnew in Hex by apply list_elem_of_here. discriminate.
    + rewrite IH; [rewrite Hc; cbn [length]; lia | assumption |].
      intros n Hn. rewrite Hdb.
      destruct (name_exists n (objects_create item.2 item.1 st.1.1).1)
        eqn:Hex; [| reflexivity].
      apply name_exists_create in Hex as [-> | Hex].
      * now contradiction Hnotin.
      * rewrite Hnew in Hex by now apply list_elem_of_further.
        discriminate.
Qed.

Lemma first_loop_body_eq (st : command_state) (i : Z) (item : text * Z) :
  sample_users !! Z.to_nat i = Some item ->
  first_loop_body st i = add_if_absent true st item.
Proof.
  intros Hi. destruct st as [[db c] out], item as [n a].
  unfold first_loop_body, add_if_absent. now rewrite Hi.
Qed.

Lemma first_loop_prefix (st : command_state) (m : nat) :
  (m <= length sample_users)%nat ->
  foldl first_loop_body st (seqZ 0 (Z.of_nat m))
  = foldl (add_if_absent true) st (take m sample_users).
Proof.
  induction m as [| m IH]; intros Hm; [reflexivity |].
  destruct (lookup_lt_is_Some_2 sample_users m) as [item Hitem]; [lia |].
  rewrite seqZ_S, (take_S_r _ _ _ Hitem), !foldl_snoc, IH by lia.
  apply first_loop_body_eq. now rewrite Z.add_0_l, Nat2Z.id.
Qed.

Lemma first_loop_eq (st : command_state) (count : Z) :
  foldl first_loop_body st
    (range 0 (Z.min count (Z.of_nat (length sample_users))))
  = foldl (add_if_absent true) st (take (Z.to_nat count) sample_users).
Proof.
  unfold range. rewrite Z.sub_0_r.
  set (len := length sample_users).
  destruct (Z.le_gt_cases count 0) as [Hc | Hc].
  - rewrite seqZ_nil by lia. now replace (Z.to_nat count) with 0%nat by lia.
  - destruct (Z.le_gt_cases count (Z.of_nat len)) as [Hle | Hgt].
    + rewrite Z.min_l by assumption.
      rewrite <- (Z2Nat.id count) at 1 by lia.
      apply first_loop_prefix. fold len. lia.
    + rewrite Z.min_r by lia. rewrite first_loop_prefix by reflexivity.
      fold len. now rewrite !take_ge by (fold len; lia).
Qed.

Lemma second_loop_eq (st : command_state) (l : list Z) :
  foldl second_loop_body st l
  = foldl (add_if_absent false) st (generated_user <$> l).
Proof.
  revert st. induction l as [| i l IH]; intros st; [reflexivity |].
  cbn [foldl fmap list_fmap]. rewrite IH.
  f_equal; now destruct st as [[db c] out].
Qed.

Lemma handle_loops (count : Z) (clear_existing : bool) (db : DB) :
  let start := if clear_existing then objects_delete_all db else db in
  let out0 : list (style * text) :=
    if clear_existing
    then [(WARNING,
           "Deleted " ++ Py.str_of_int (objects_count db) ++ " existing users")]
    else [] in
  let st :=
    foldl (add_if_absent false)
      (foldl (add_if_absent true) (start, 0, out0)
         (take (Z.to_nat count) sample_users))
      (generated_user <$> range 10 count) in
  (handle count clear_existing db).1 = st.1.1
  /\ (0 < st.1.2 ->
      exists rest,
        (handle count clear_existing db).2
        = app st.2
            ((SUCCESS,
              "Successfully created " ++ Py.str_of_int st.1.2
              ++ " sample users!")
             :: (Plain,
                 "Total users in database: "
                 ++ Py.str_of_int (objects_count st.1.1))
             :: rest))
  /\ (st.1.2 <= 0 ->
      (handle count clear_existing db).2
      = app st.2 [(WARNING, "No new users were created")]).
Proof.
  assert (Hsecond : forall st1,
            (if 10 <? count then foldl second_loop_body st1 (range 10 count)
             else st1)
            = foldl (add_if_absent false) st1
                (generated_user <$> range 10 count)).
  { intros st1. destruct (Z.ltb_spec 10 count); [apply second_loop_eq |].
    unfold range. now rewrite seqZ_nil by lia. }
  cbn zeta. unfold handle.
  destruct clear_existing; cbn zeta beta iota; rewrite first_loop_eq;
    change (Z.of_nat (length sample_users)) with 10; rewrite Hsecond;
    match goal with
    | |- context [foldl (add_if_absent false) ?a ?l] =>
        destruct (foldl (add_if_absent false) a l) as [[db' c'] out']
    end;
    cbn [fst snd]; destruct (Z.ltb_spec 0 c'); cbn [fst snd];
    (split; [reflexivity |]); split; solve [eauto | lia | reflexivity].
Qed.

Lemma fold_unchanged (warn : bool) (items : list (text * Z))
    (st : command_state) :
  (foldl (add_if_absent warn) st items).1.2 = st.1.2 ->
  (foldl (add_if_absent warn) st items).1.1 = st.1.1.
Proof.
  revert st. induction items as [| item items IH]; intros st Hc;
    [reflexivity |].
  cbn [foldl] in *.
  destruct (fold_count warn items (add_if_absent warn st item)) as [_ Hle].
  cbn zeta in Hle.
  destruct (add_if_absent_cases warn st item)
    as [(_ & Hdb & Hc') | (_ & _ & Hc')].
  - rewrite IH by congruence. assumption.
  - lia.
Qed.

Lemma sample_ages (item : text * Z) :
  item ∈ sample_users -> 20 <= item.2 <= 49.
Proof.
  intros H. unfold sample_users in H.
  repeat (apply elem_of_cons in H as [-> | H]; [cbn; lia |]).
  inversion H.
Qed.

Lemma generated_age (i : Z) : 20 <= (generated_user i).2 <= 49.
Proof. cbn. pose proof (Z.mod_pos_bound i 30). lia. Qed.

Lemma sample_names_NoDup : NoDup sample_users.*1.
Proof. apply (bool_decide_unpack _). vm_compute. exact I. Qed.

Lemma sample_names_not_generated (n t : text) :
  n ∈ sample_users.*1 -> n <> "Sample User " ++ t.
Proof.
  intros H E. cbn in H, E.
  repeat (apply elem_of_cons in H as [-> | H]; [discriminate E |]).
  inversion H.
Qed.

Lemma str_of_int_inj (a b : Z) :
  0 <= a -> 0 <= b -> Py.str_of_int a = Py.str_of_int b -> a = b.
Proof.
  intros Ha Hb E. pose proof (take_digits_str_of_int a Ha) as Hx.
  rewrite E, (take_digits_str_of_int b Hb) in Hx. congruence.
Qed.

Lemma generated_names_NoDup (count : Z) :
  NoDup (generated_user <$> range 10 count).*1.
Proof.
  rewrite <- list_fmap_compose. apply NoDup_fmap_2_strong;
    [| apply NoDup_seqZ].
  intros i j Hi Hj E. unfold range in Hi, Hj.
  apply elem_of_seqZ in Hi, Hj. cbn in E. injection E as E.
  apply str_of_int_inj in E; lia.
Qed.

Lemma taken_sample_names (m : nat) (n : text) :
  n ∈ (take m sample_users).*1 -> n ∈ sample_users.*1.
Proof.
  rewrite !list_elem_of_fmap. intros (item & -> & Hin).
  apply elem_of_take in Hin as (i & Hi & _). exists item.
  split; [reflexivity |]. now apply list_elem_of_lookup_2 with i.
Qed.

Lemma generated_name_shape (count : Z) (n : text) :
  n ∈ (generated_user <$> range 10 count).*1 ->
  exists t, n = "Sample User " ++ t.
Proof.
  rewrite <- list_fmap_compose, list_elem_of_fmap.
  intros (i & -> & _). cbn. eauto.
Qed.

Lemma deleted_all_names (n : text) (db : DB) :
  name_exists n (objects_delete_all db) = false.
Proof.
  destruct (name_exists n (objects_delete_all db)) eqn:E; [| reflexivity].
  apply name_exists_spec in E as (k & a & Hk). cbn in Hk.
  rewrite lookup_empty in Hk. discriminate.
Qed.

(** X12.  The command never touches the rows it finds unless it is told to
    clear: without [--clear] every row of the store is still there
    afterwards, unchanged; and with or without it, every row that is there
    afterwards and was not (or was cleared) has an age from 20 to 49. *)
Theorem handle_rows (count : Z) (clear_existing : bool) (db : DB) :
  let db' := (handle count clear_existing db).1 in
  (clear_existing = false ->
   forall k r, api_user db !! k = Some r -> api_user db' !! k = Some r)
  /\ (forall k r, api_user db' !! k = Some r ->
        (clear_existing = false /\ api_user db !! k = Some r)
        \/ 20 <= r.1 <= 49).
Proof.
  cbn zeta. destruct (handle_loops count clear_existing db) as (-> & _).
  split.
  - intros -> k r Hk. now do 2 apply fold_keeps_rows.
  - intros k r Hk.
    apply fold_new_rows in Hk as [Hk | Hin].
    + apply fold_new_rows in Hk as [Hk | Hin].
      * cbn in Hk. destruct clear_existing; [| now left].
        cbn in Hk. rewrite lookup_empty in Hk. discriminate.
      * right. apply elem_of_take in Hin as (i & Hi & _).
        apply list_elem_of_lookup_2 in Hi.
        now apply sample_ages in Hi.
    + right. apply list_elem_of_fmap in Hin as (i & Heq & _).
      pose proof (generated_age i) as Hage. rewrite <- Heq in Hage.
      assumption.
Qed.

(** X13.  Running the command again creates nothing: after any run, a run
    with the same count and without [--clear] leaves the store exactly as
    it is and ends with the warning that no new users were created. *)
Theorem handle_idempotent (count : Z) (clear_existing : bool) (db : DB) :
  let first := handle count clear_existing db in
  let second := handle count false first.1 in
  second.1 = first.1
  /\ last second.2 = Some (WARNING, "No new users were created").
Proof.
  cbn zeta.
  destruct (handle_loops count clear_existing db) as (Hdb & _).
  destruct (handle_loops count false (handle count clear_existing db).1)
    as (Hdb2 & _ & Hout2).
  cbn zeta in *.
  set (db1 := (handle count clear_existing db).1) in *.
  set (items1 := take (Z.to_nat count) sample_users) in *.
  set (items2 := generated_user <$> range 10 count) in *.
  assert (Hnames : forall item, item ∈ (items1 ++ items2)%list ->
            name_exists item.1 db1 = true).
  { intros item Hin. rewrite Hdb. apply fold_names.
    apply elem_of_app in Hin as [Hin | Hin].
    - left. apply fold_names. right. now apply list_elem_of_fmap_2.
    - right. now apply list_elem_of_fmap_2. }
  assert (H1 : (foldl (add_if_absent true) (db1, 0, []) items1).1 = (db1, 0)).
  { apply fold_skips. intros item Hin. apply Hnames, elem_of_app. now left. }
  assert (H2 : (foldl (add_if_absent false)
                  (foldl (add_if_absent true) (db1, 0, []) items1) items2).1
               = (db1, 0)).
  { rewrite fold_skips; [assumption |]. intros item Hin. rewrite H1. cbn.
    apply Hnames, elem_of_app. now right. }
  rewrite H2 in Hdb2, Hout2. cbn [fst snd] in Hdb2, Hout2.
  split; [assumption |].
  rewrite Hout2 by lia. apply last_snoc.
Qed.

(** X14.  A count of zero or below creates nothing: without [--clear] the
    store is returned as it is and the only line written is the warning;
    with [--clear] the store is emptied, its key counter kept, and the
    lines are the count of deleted users and the warning. *)
Theorem handle_nothing_to_do (count : Z) (db : DB) :
  count <= 0 ->
  handle count false db = (db, [(WARNING, "No new users were created")])
  /\ handle count true db
     = (objects_delete_all db,
        [(WARNING,
          "Deleted " ++ Py.str_of_int (objects_count db) ++ " existing users");
         (WARNING, "No new users were created")]).
Proof.
  intros Hc. unfold handle, range.
  change (Z.of_nat (length sample_users)) with 10.
  rewrite seqZ_nil by lia.
  destruct (Z.ltb_spec 10 count); [lia |]. now split.
Qed.

(** X15.  With [--clear] the command leaves exactly the requested number
    of users, whatever the store held before (none for a count of zero or
    below): the ten sample names and the generated names are all
    different, so none is skipped. *)
Theorem handle_clear_count (count : Z) (db : DB) :
  objects_count (handle count true db).1 = Z.max 0 count.
Proof.
  destruct (handle_loops count true db) as (-> & _).
  set (items1 := take (Z.to_nat count) sample_users).
  set (items2 := generated_user <$> range 10 count).
  set (st0 := (objects_delete_all db, 0, _) : command_state).
  set (st1 := foldl (add_if_absent true) st0 items1).
  assert (H1 : st1.1.2 = Z.of_nat (length items1)).
  { unfold st1. rewrite fold_fresh; [reflexivity | |].
    - unfold items1. rewrite fmap_take.
      eapply sublist_NoDup; [apply sample_names_NoDup | apply sublist_take].
    - intros n _. apply deleted_all_names. }
  assert (H2 : (foldl (add_if_absent false) st1 items2).1.2
               = st1.1.2 + Z.of_nat (length items2)).
  { apply fold_fresh; [apply generated_names_NoDup |].
    intros n Hn. destruct (name_exists n st1.1.1) eqn:E; [| reflexivity].
    apply fold_names in E as [E | E].
    - cbn in E. rewrite deleted_all_names in E. discriminate.
    - apply taken_sample_names in E.
      apply generated_name_shape in Hn as [t ->].
      now contradiction (sample_names_not_generated _ t E). }
  destruct (fold_count false items2 st1) as [Hc2 _].
  destruct (fold_count true items1 st0) as [Hc1 _].
  cbn zeta in Hc1, Hc2. fold st1 in Hc1. rewrite Hc2, Hc1, H2, H1.
  unfold st0, items1, items2, range, objects_count, objects_delete_all.
  cbn [fst snd api_user].
  rewrite map_size_empty, length_fmap, length_seqZ, length_take.
  change (length sample_users) with 10%nat. lia.
Qed.

(** X16.  The summary is right: the command never shrinks the store it
    starts from (the emptied one under [--clear]); when it adds rows, it
    writes the success line with exactly the number of rows added and the
    total line with the number of rows now stored; when it adds none, the
    store is that starting store and the last line is the warning. *)
Theorem handle_reports (count : Z) (clear_existing : bool) (db : DB) :
  let start := if clear_existing then objects_delete_all db else db in
  let db' := (handle count clear_existing db).1 in
  let out := (handle count clear_existing db).2 in
  let added := objects_count db' - objects_count start in
  0 <= added
  /\ (0 < added ->
      (SUCCESS,
       "Successfully created " ++ Py.str_of_int added ++ " sample users!")
      ∈ out
      /\ (Plain,
          "Total users in database: " ++ Py.str_of_int (objects_count db'))
         ∈ out)
  /\ (added = 0 ->
      db' = start
      /\ last out = Some (WARNING, "No new users were created")).
Proof.
  cbn zeta.
  destruct (handle_loops count clear_existing db) as (Hdb & Hsome & Hnone).
  cbn zeta in *.
  set (start := if clear_existing then objects_delete_all db else db) in *.
  set (st0 := (start, 0, _) : command_state) in *.
  set (st1 := foldl (add_if_absent true) st0 _) in *.
  set (st2 := foldl (add_if_absent false) st1 _) in *.
  destruct (fold_count true (take (Z.to_nat count) sample_users) st0)
    as [Hc1 Hle1].
  destruct (fold_count false (generated_user <$> range 10 count) st1)
    as [Hc2 Hle2].
  cbn zeta in Hc1, Hle1, Hc2, Hle2. fold st1 in Hc1, Hle1.
  fold st2 in Hc2, Hle2. change st0.1.1 with start in Hc1.
  change st0.1.2 with 0 in Hc1, Hle1.
  assert (Hadded : objects_count (handle count clear_existing db).1
                   - objects_count start = st2.1.2).
  { rewrite Hdb. lia. }
  rewrite Hadded. split; [lia |]. split.
  - intros Hpos. destruct (Hsome Hpos) as [rest ->]. rewrite Hdb.
    split; apply elem_of_app; right.
    + apply list_elem_of_here.
    + apply list_elem_of_further, list_elem_of_here.
  - intros Hzero. rewrite Hnone by lia. split; [| apply last_snoc].
    rewrite Hdb. unfold st2. rewrite fold_unchanged by (fold st2; lia).
    unfold st1.
    now rewrite fold_unchanged by (fold st1; change st0.1.2 with 0; lia).
Qed.

End Backend.

(** ** Worked examples *)

Example strip_ex : Py.strip "  Ann Lee  " = "Ann Lee".
Proof. reflexivity. Qed.

Example lower_ex : Py.lower "OPTIONS" = "options"%string.
Proof. reflexivity. Qed.

Example int_of_str_ex1 : Py.int_of_str Py.unicode_14_todecimal " -1_000 " = Some (-1000).
Proof. reflexivity. Qed.

Example int_of_str_ex2 : Py.int_of_str Py.unicode_14_todecimal "1__0" = None.
Proof. reflexivity. Qed.

Example int_of_str_ex3 : Py.int_of_str Py.unicode_14_todecimal "not_a_number" = None.
Proof. reflexivity. Qed.

Example re_decimal_sub_ex1 : Py.re_decimal_sub "25.00 " = "25".
Proof. reflexivity. Qed.

Example re_decimal_sub_ex2 : Py.re_decimal_sub "2.5" = "2.5".
Proof. reflexivity. Qed.

(** The scenario of section 8: POST C, DELETE it, GET it. *)
Example scenario_post :
  create_user Py.unicode_14_todecimal sqlite_min sqlite_max (mkRequest "POST" body_C) two_users
  = (mkDB (<[3 := (3, "C")]> (api_user two_users)) 3,
     mkResponse
       (Data (VDict [("id", VInt 3); ("age", VInt 3); ("name", VStr "C")]))
       HTTP_201_CREATED).
Proof. vm_compute. reflexivity. Qed.

Example scenario_list :
  (get_users (mkRequest "GET" VNone) two_users).2
  = mkResponse
      (Data (VList
         [VDict [("id", VInt 1); ("age", VInt 1); ("name", VStr "A")];
          VDict [("id", VInt 2); ("age", VInt 2); ("name", VStr "B")]]))
      HTTP_200_OK.
Proof. vm_compute. reflexivity. Qed.

Example numeric_string_age_accepted :
  (create_user Py.unicode_14_todecimal sqlite_min sqlite_max
     (mkRequest "POST" (VDict [("name", VInt 12); ("age", VStr "25.0")]))
     empty_db).2
  = mkResponse
      (Data (VDict [("id", VInt 1); ("age", VInt 25); ("name", VStr "12")]))
      HTTP_201_CREATED.
Proof. vm_compute. reflexivity. Qed.

(** Numbers with a fraction: a name of 1.5 is taken as its text and an
    age of 25.0 as 25, an age of 25.5 is refused. *)
Example fractional_numbers_accepted :
  create_user Py.unicode_14_todecimal sqlite_min sqlite_max
    (mkRequest "POST" body_floats) empty_db
  = (mkDB (<[1 := (25, "1.5")]> ∅) 1,
     mkResponse
       (Data (VDict [("id", VInt 1); ("age", VInt 25); ("name", VStr "1.5")]))
       HTTP_201_CREATED).
Proof. vm_compute. reflexivity. Qed.

Example fractional_age_refused :
  create_user Py.unicode_14_todecimal sqlite_min sqlite_max
    (mkRequest "POST" (VDict [("name", VStr "A"); ("age", VFloat "25.5")]))
    empty_db
  = (empty_db,
     mkResponse
       (Data (VDict [("age", VList [VStr "A valid integer is required."])]))
       HTTP_400_BAD_REQUEST).
Proof. vm_compute. reflexivity. Qed.

(** Text beyond Latin-1: a name with a lone surrogate is refused; an age
    written in Arabic-Indic digits is read, and an ideographic space
    around a name is trimmed. *)
Example surrogate_name_refused :
  create_user Py.unicode_14_todecimal sqlite_min sqlite_max
    (mkRequest "POST" body_surrogate) empty_db
  = (empty_db,
     mkResponse
       (Data (VDict [("name",
          VList [VStr "Surrogate characters are not allowed: U+D800."])]))
       HTTP_400_BAD_REQUEST).
Proof. vm_compute. reflexivity. Qed.

Example unicode_digits_and_spaces :
  create_user Py.unicode_14_todecimal sqlite_min sqlite_max
    (mkRequest "POST"
       (VDict [("name", VStr [12288; 65; 8195]); ("age", VStr [1635; 1632])]))
    empty_db
  = (mkDB (<[1 := (30, "A")]> ∅) 1,
     mkResponse
       (Data (VDict [("id", VInt 1); ("age", VInt 30); ("name", VStr "A")]))
       HTTP_201_CREATED).
Proof. vm_compute. reflexivity. Qed.

(** The same bodies against the description of what is accepted. *)
Example fractional_numbers_acceptable :
  acceptable Py.unicode_14_todecimal sqlite_min sqlite_max body_floats.
Proof. apply is_valid_acceptable. eexists. vm_compute. reflexivity. Qed.

Example surrogate_name_not_acceptable :
  ~ acceptable Py.unicode_14_todecimal sqlite_min sqlite_max body_surrogate.
Proof.
  intros H. apply is_valid_acceptable in H as [vd H]. vm_compute in H.
  discriminate H.
Qed.

Example trimmed_ex : trimmed "  Ann Lee  " "Ann Lee".
Proof. now apply strip_trimmed. Qed.

Example without_zero_fraction_ex : without_zero_fraction "25.00 " "25".
Proof. now apply re_decimal_sub_spec. Qed.

Example reads_as_integer_ex :
  reads_as_integer Py.unicode_14_todecimal " -1_000 " (-1000).
Proof. now apply int_of_str_spec. Qed.

(** An age beyond 32 bits fits the 64-bit integers of SQLite. *)
Example wide_age_accepted :
  (create_user Py.unicode_14_todecimal sqlite_min sqlite_max
     (mkRequest "POST" (VDict [("name", VStr "A"); ("age", VInt 4294967296)]))
     empty_db).2
  = mkResponse
      (Data (VDict [("id", VInt 1); ("age", VInt 4294967296);
                    ("name", VStr "A")]))
      HTTP_201_CREATED.
Proof. vm_compute. reflexivity. Qed.

Example put_ignores_body_id :
  (user_detail Py.unicode_14_todecimal sqlite_min sqlite_max
     (mkRequest "PUT"
        (VDict [("id", VInt 9); ("name", VStr "Z"); ("age", VInt 7)]))
     2 two_users).2
  = mkResponse
      (Data (VDict [("id", VInt 2); ("age", VInt 7); ("name", VStr "Z")]))
      HTTP_200_OK.
Proof. vm_compute. reflexivity. Qed.

(** ** Where the code departs from the specification's wording *)

(** C1, as the specification words it, fails on a name of one blank: a
    non-empty string of at most 100 characters with an integer age, and
    yet the POST is answered 400. *)
Lemma blank_name_rejected :
  spec_valid body_blank
  /\ create_user Py.unicode_14_todecimal sqlite_min sqlite_max (mkRequest "POST" body_blank) empty_db
     = (empty_db,
        mkResponse
          (Data (VDict [("name", VList [VStr "This field may not be blank."])]))
          HTTP_400_BAD_REQUEST)
  /\ ~ (status_code
          (create_user Py.unicode_14_todecimal sqlite_min sqlite_max (mkRequest "POST" body_blank)
             empty_db).2
        = HTTP_201_CREATED
        <-> spec_valid body_blank).
Proof.
  assert (Hspec : spec_valid body_blank).
  { exists [("name", VStr " "); ("age", VInt 1)], " ", 1.
    repeat split; try reflexivity; [discriminate | vm_compute; discriminate]. }
  split; [assumption |]. split; [vm_compute; reflexivity |].
  intros [_ H]. specialize (H Hspec). vm_compute in H. discriminate.
Qed.

(** C3, as the specification words it, fails on a PUT to an id that is not
    in the store: the body fails validation, and the answer is 404. *)
Lemma put_missing_id_invalid_body :
  is_valid Py.unicode_14_todecimal sqlite_min sqlite_max body_invalid
  = inr [("age", ["A valid integer is required."]);
         ("name", ["This field may not be blank."])]
  /\ user_detail Py.unicode_14_todecimal sqlite_min sqlite_max (mkRequest "PUT" body_invalid) 7 empty_db
     = (empty_db, mkResponse Empty HTTP_404_NOT_FOUND)
  /\ HTTP_404_NOT_FOUND <> HTTP_400_BAD_REQUEST.
Proof.
  split; [vm_compute; reflexivity |].
  split; [vm_compute; reflexivity | discriminate].
Qed.

(** C10, as the specification words it, fails on OPTIONS: it is not among
    the methods of /users/, and the answer is 200. *)
Lemma options_is_answered :
  endpoint "/api/users/" ["GET"]%string
  /\ ("OPTIONS" ∉ ["GET"])%string
  /\ serve Py.unicode_14_todecimal sqlite_min sqlite_max "/api/users/" (mkRequest "OPTIONS" VNone)
       two_users
     = Some (two_users, mkResponse Metadata HTTP_200_OK)
  /\ HTTP_200_OK <> HTTP_405_METHOD_NOT_ALLOWED.
Proof.
  split; [constructor |]. split; [compute_done |].
  split; [vm_compute; reflexivity | discriminate].
Qed.

(** ** The theorems at work on the examples *)

Lemma post_then_get_witness :
  is_valid Py.unicode_14_todecimal sqlite_min sqlite_max body_C = inl (mkValidated 3 "C")
  /\ exists db' u,
       create_user Py.unicode_14_todecimal sqlite_min sqlite_max (mkRequest "POST" body_C) two_users
       = (db', mkResponse (Data (to_representation u)) HTTP_201_CREATED)
       /\ response_field "id"
            (mkResponse (Data (to_representation u)) HTTP_201_CREATED)
          = Some (VInt (id u))
       /\ user_detail Py.unicode_14_todecimal sqlite_min sqlite_max (mkRequest "GET" VNone) (id u) db'
          = (db', mkResponse (Data (to_representation u)) HTTP_200_OK).
Proof.
  assert (H : is_valid Py.unicode_14_todecimal sqlite_min sqlite_max body_C = inl (mkValidated 3 "C"))
    by reflexivity.
  split; [exact H |].
  exact (post_then_get Py.unicode_14_todecimal sqlite_min sqlite_max body_C VNone _ two_users H).
Defined.

Lemma validation_failure_atomic_witness :
  is_valid Py.unicode_14_todecimal sqlite_min sqlite_max body_invalid
  = inr [("age", ["A valid integer is required."]);
         ("name", ["This field may not be blank."])]
  /\ create_user Py.unicode_14_todecimal sqlite_min sqlite_max (mkRequest "POST" body_invalid) two_users
     = (two_users,
        mkResponse
          (Data (errors_data
             [("age", ["A valid integer is required."]);
              ("name", ["This field may not be blank."])]))
          HTTP_400_BAD_REQUEST)
  /\ forall user_id, is_Some (api_user two_users !! user_id) ->
       user_detail Py.unicode_14_todecimal sqlite_min sqlite_max (mkRequest "PUT" body_invalid) user_id
         two_users
       = (two_users,
          mkResponse
            (Data (errors_data
               [("age", ["A valid integer is required."]);
                ("name", ["This field may not be blank."])]))
            HTTP_400_BAD_REQUEST).
Proof.
  assert (H : is_valid Py.unicode_14_todecimal sqlite_min sqlite_max body_invalid
              = inr [("age", ["A valid integer is required."]);
                     ("name", ["This field may not be blank."])])
    by reflexivity.
  split; [exact H |].
  exact (validation_failure_atomic Py.unicode_14_todecimal sqlite_min sqlite_max body_invalid _
           two_users H).
Defined.

Lemma missing_id_is_404_witness :
  api_user two_users !! 99999 = None
  /\ ("GET" ∈ ["GET"; "PUT"; "DELETE"])%string
  /\ user_detail Py.unicode_14_todecimal sqlite_min sqlite_max (mkRequest "GET" VNone) 99999 two_users
     = (two_users, mkResponse Empty HTTP_404_NOT_FOUND).
Proof.
  assert (H1 : api_user two_users !! 99999 = None) by reflexivity.
  assert (H2 : ("GET" ∈ ["GET"; "PUT"; "DELETE"])%string) by constructor.
  split; [exact H1 |]. split; [exact H2 |].
  exact (missing_id_is_404 Py.unicode_14_todecimal sqlite_min sqlite_max "GET" VNone 99999 two_users
           H1 H2).
Defined.

Lemma delete_removes_one_witness :
  api_user two_users !! 1 = Some (1, "A")
  /\ exists db',
       user_detail Py.unicode_14_todecimal sqlite_min sqlite_max (mkRequest "DELETE" VNone) 1 two_users
       = (db', mkResponse Empty HTTP_204_NO_CONTENT)
       /\ api_user db' !! 1 = None
       /\ (forall k, k <> 1 -> api_user db' !! k = api_user two_users !! k)
       /\ size (api_user two_users) = S (size (api_user db'))
       /\ length (objects_all two_users) = S (length (objects_all db'))
       /\ user_detail Py.unicode_14_todecimal sqlite_min sqlite_max (mkRequest "DELETE" VNone) 1 db'
          = (db', mkResponse Empty HTTP_404_NOT_FOUND).
Proof.
  assert (H : api_user two_users !! 1 = Some (1, "A")) by reflexivity.
  split; [exact H |].
  exact (delete_removes_one Py.unicode_14_todecimal sqlite_min sqlite_max VNone VNone 1 two_users _ H).
Defined.

Lemma put_updates_one_witness :
  api_user two_users !! 2 = Some (2, "B")
  /\ is_valid Py.unicode_14_todecimal sqlite_min sqlite_max body_C = inl (mkValidated 3 "C")
  /\ exists db',
       user_detail Py.unicode_14_todecimal sqlite_min sqlite_max (mkRequest "PUT" body_C) 2 two_users
       = (db', mkResponse
                 (Data (VDict [("id", VInt 2); ("age", VInt 3);
                               ("name", VStr "C")]))
                 HTTP_200_OK)
       /\ api_user db' !! 2 = Some (3, "C")
       /\ (forall k, k <> 2 -> api_user db' !! k = api_user two_users !! k)
       /\ size (api_user db') = size (api_user two_users)
       /\ api_user_seq db' = api_user_seq two_users.
Proof.
  assert (H1 : api_user two_users !! 2 = Some (2, "B")) by reflexivity.
  assert (H2 : is_valid Py.unicode_14_todecimal sqlite_min sqlite_max body_C = inl (mkValidated 3 "C"))
    by reflexivity.
  split; [exact H1 |]. split; [exact H2 |].
  exact (put_updates_one Py.unicode_14_todecimal sqlite_min sqlite_max body_C _ 2 two_users _ H1 H2).
Defined.

Lemma create_persists_one_witness :
  is_valid Py.unicode_14_todecimal sqlite_min sqlite_max body_C = inl (mkValidated 3 "C")
  /\ exists db' k,
       create_user Py.unicode_14_todecimal sqlite_min sqlite_max (mkRequest "POST" body_C) two_users
       = (db', mkResponse
                 (Data (VDict [("id", VInt k); ("age", VInt 3);
                               ("name", VStr "C")]))
                 HTTP_201_CREATED)
       /\ api_user two_users !! k = None
       /\ api_user db' !! k = Some (3, "C")
       /\ (forall j, j <> k -> api_user db' !! j = api_user two_users !! j)
       /\ size (api_user db') = S (size (api_user two_users)).
Proof.
  assert (H : is_valid Py.unicode_14_todecimal sqlite_min sqlite_max body_C = inl (mkValidated 3 "C"))
    by reflexivity.
  split; [exact H |].
  exact (create_persists_one Py.unicode_14_todecimal sqlite_min sqlite_max body_C _ two_users H).
Defined.

Lemma requests_keep_invariant_witness :
  Inv sqlite_min sqlite_max empty_db
  /\ serve Py.unicode_14_todecimal sqlite_min sqlite_max "/api/users/create" (mkRequest "POST" body_C)
       empty_db
     = Some (mkDB (<[1 := (3, "C")]> ∅) 1,
             mkResponse (Data (to_representation (mkUser 1 3 "C")))
                        HTTP_201_CREATED)
  /\ Inv sqlite_min sqlite_max (mkDB (<[1 := (3, "C")]> ∅) 1).
Proof.
  assert (H1 : Inv sqlite_min sqlite_max empty_db).
  { intros k r Hk. unfold empty_db in Hk. cbn [api_user] in Hk.
    rewrite lookup_empty in Hk. discriminate Hk. }
  assert (H2 : serve Py.unicode_14_todecimal sqlite_min sqlite_max "/api/users/create"
                 (mkRequest "POST" body_C) empty_db
               = Some (mkDB (<[1 := (3, "C")]> ∅) 1,
                       mkResponse (Data (to_representation (mkUser 1 3 "C")))
                                  HTTP_201_CREATED))
    by (vm_compute; reflexivity).
  split; [exact H1 |]. split; [exact H2 |].
  exact (proj1 (requests_keep_invariant Py.unicode_14_todecimal sqlite_min sqlite_max _ _ _ _ _ H1 H2)).
Defined.

Lemma other_methods_not_allowed_witness :
  endpoint "/api/users/create" ["POST"]%string
  /\ (Py.lower "DELETE" ∉ Py.lower <$> ["POST"])%string
  /\ serve Py.unicode_14_todecimal sqlite_min sqlite_max "/api/users/create" (mkRequest "DELETE" VNone)
       two_users
     = Some (two_users, method_not_allowed "DELETE").
Proof.
  assert (H1 : endpoint "/api/users/create" ["POST"]%string) by constructor.
  assert (H2 : (Py.lower (method (mkRequest "DELETE" VNone))
                ∉ Py.lower <$> ["POST"])%string) by compute_done.
  assert (H3 : Py.lower (method (mkRequest "DELETE" VNone))
               <> "options"%string) by discriminate.
  split; [exact H1 |]. split; [exact H2 |].
  exact (proj1 (proj1 (other_methods_not_allowed Py.unicode_14_todecimal sqlite_min sqlite_max _ _
                         (mkRequest "DELETE" VNone) two_users H1 H2) H3)).
Defined.

(** ** The further properties at work on the examples *)

Lemma status_tells_store_change_witness :
  serve Py.unicode_14_todecimal sqlite_min sqlite_max "/api/users/create" (mkRequest "POST" body_C)
    two_users
  = Some (mkDB (<[3 := (3, "C")]> (api_user two_users)) 3,
          mkResponse (Data (to_representation (mkUser 3 3 "C")))
                     HTTP_201_CREATED)
  /\ size (<[3 := (3, "C")]> (api_user two_users))
     = S (size (api_user two_users)).
Proof.
  assert (H : serve Py.unicode_14_todecimal sqlite_min sqlite_max "/api/users/create"
                (mkRequest "POST" body_C) two_users
              = Some (mkDB (<[3 := (3, "C")]> (api_user two_users)) 3,
                      mkResponse (Data (to_representation (mkUser 3 3 "C")))
                                 HTTP_201_CREATED))
    by (vm_compute; reflexivity).
  split; [exact H |].
  exact (proj1 (status_tells_store_change Py.unicode_14_todecimal sqlite_min sqlite_max _ _ _ _ _ H)
           eq_refl).
Defined.

Lemma only_writes_change_store_witness :
  serve Py.unicode_14_todecimal sqlite_min sqlite_max "/api/users/create" (mkRequest "POST" body_C)
    two_users
  = Some (mkDB (<[3 := (3, "C")]> (api_user two_users)) 3,
          mkResponse (Data (to_representation (mkUser 3 3 "C")))
                     HTTP_201_CREATED)
  /\ mkDB (<[3 := (3, "C")]> (api_user two_users)) 3 <> two_users
  /\ (Py.lower "POST" = "post" \/ "POST" = "PUT" \/ "POST" = "DELETE")%string.
Proof.
  assert (H1 : serve Py.unicode_14_todecimal sqlite_min sqlite_max "/api/users/create"
                 (mkRequest "POST" body_C) two_users
               = Some (mkDB (<[3 := (3, "C")]> (api_user two_users)) 3,
                       mkResponse (Data (to_representation (mkUser 3 3 "C")))
                                  HTTP_201_CREATED))
    by (vm_compute; reflexivity).
  assert (H2 : mkDB (<[3 := (3, "C")]> (api_user two_users)) 3 <> two_users).
  { intros E. apply (f_equal api_user_seq) in E. discriminate E. }
  split; [exact H1 |]. split; [exact H2 |].
  exact (only_writes_change_store Py.unicode_14_todecimal sqlite_min sqlite_max _ _ _ _ _ H1 H2).
Defined.

Lemma put_settles_witness :
  api_user two_users !! 2 = Some (2, "B")
  /\ is_valid Py.unicode_14_todecimal sqlite_min sqlite_max body_C = inl (mkValidated 3 "C")
  /\ user_detail Py.unicode_14_todecimal sqlite_min sqlite_max (mkRequest "GET" VNone) 2
       (user_detail Py.unicode_14_todecimal sqlite_min sqlite_max (mkRequest "PUT" body_C) 2
          two_users).1
     = user_detail Py.unicode_14_todecimal sqlite_min sqlite_max (mkRequest "PUT" body_C) 2 two_users.
Proof.
  assert (H1 : api_user two_users !! 2 = Some (2, "B")) by reflexivity.
  assert (H2 : is_valid Py.unicode_14_todecimal sqlite_min sqlite_max body_C = inl (mkValidated 3 "C"))
    by reflexivity.
  split; [exact H1 |]. split; [exact H2 |].
  exact (proj1 (put_settles Py.unicode_14_todecimal sqlite_min sqlite_max body_C VNone _ 2 two_users _
                  H1 H2)).
Defined.

Lemma post_then_delete_witness :
  is_valid Py.unicode_14_todecimal sqlite_min sqlite_max body_C = inl (mkValidated 3 "C")
  /\ exists db1 u db2,
       create_user Py.unicode_14_todecimal sqlite_min sqlite_max (mkRequest "POST" body_C) two_users
       = (db1, mkResponse (Data (to_representation u)) HTTP_201_CREATED)
       /\ user_detail Py.unicode_14_todecimal sqlite_min sqlite_max (mkRequest "DELETE" VNone) (id u) db1
          = (db2, mkResponse Empty HTTP_204_NO_CONTENT)
       /\ api_user db2 = api_user two_users.
Proof.
  assert (H : is_valid Py.unicode_14_todecimal sqlite_min sqlite_max body_C = inl (mkValidated 3 "C"))
    by reflexivity.
  split; [exact H |].
  exact (post_then_delete Py.unicode_14_todecimal sqlite_min sqlite_max body_C VNone _ two_users H).
Defined.

Lemma non_object_body_rejected_witness :
  (forall d, VList [VInt 1] <> VDict d)
  /\ exists msg,
       create_user Py.unicode_14_todecimal sqlite_min sqlite_max (mkRequest "POST" (VList [VInt 1]))
         two_users
       = (two_users,
          mkResponse (Data (VDict [("non_field_errors", VList [VStr msg])]))
                     HTTP_400_BAD_REQUEST).
Proof.
  assert (H : forall d, VList [VInt 1] <> VDict d) by (intros d; discriminate).
  split; [exact H |].
  exact (non_object_body_rejected Py.unicode_14_todecimal sqlite_min sqlite_max _ two_users H).
Defined.

Lemma put_back_is_noop_witness :
  is_valid Py.unicode_14_todecimal sqlite_min sqlite_max (VDict [("name", VStr " B "); ("age", VStr "2")])
  = inl (mkValidated 2 "B")
  /\ api_user two_users !! 2 = Some (2, "B")
  /\ user_detail Py.unicode_14_todecimal sqlite_min sqlite_max
       (mkRequest "PUT" (to_representation (mkUser 9 2 "B"))) 2 two_users
     = (two_users,
        mkResponse (Data (to_representation (mkUser 2 2 "B"))) HTTP_200_OK).
Proof.
  assert (H1 : is_valid Py.unicode_14_todecimal sqlite_min sqlite_max
                 (VDict [("name", VStr " B "); ("age", VStr "2")])
               = inl (mkValidated 2 "B")) by reflexivity.
  assert (H2 : api_user two_users !! 2 = Some (2, "B")) by reflexivity.
  split; [exact H1 |]. split; [exact H2 |].
  exact (put_back_is_noop Py.unicode_14_todecimal sqlite_min sqlite_max _ (mkValidated 2 "B") 2 9
           two_users H1 H2).
Defined.

Lemma post_then_get_over_http_witness :
  is_valid Py.unicode_14_todecimal sqlite_min sqlite_max body_C = inl (mkValidated 3 "C")
  /\ 0 <= api_user_seq two_users
  /\ exists db1 u,
       serve Py.unicode_14_todecimal sqlite_min sqlite_max "/api/users/create" (mkRequest "POST" body_C)
         two_users
       = Some (db1,
               mkResponse (Data (to_representation u)) HTTP_201_CREATED)
       /\ serve Py.unicode_14_todecimal sqlite_min sqlite_max
            ("/api/users/" ++ Py.str_of_int (id u) ++ "/")
            (mkRequest "GET" VNone) db1
          = Some (db1, mkResponse (Data (to_representation u)) HTTP_200_OK).
Proof.
  assert (H1 : is_valid Py.unicode_14_todecimal sqlite_min sqlite_max body_C = inl (mkValidated 3 "C"))
    by reflexivity.
  assert (H2 : 0 <= api_user_seq two_users) by (vm_compute; discriminate).
  split; [exact H1 |]. split; [exact H2 |].
  exact (post_then_get_over_http Py.unicode_14_todecimal sqlite_min sqlite_max body_C VNone _ two_users
           H1 H2).
Defined.

Lemma handle_nothing_to_do_witness :
  -3 <= 0
  /\ handle (-3) false two_users
     = (two_users, [(WARNING, "No new users were created")]).
Proof.
  assert (H : -3 <= 0) by lia.
  split; [exact H |].
  exact (proj1 (handle_nothing_to_do (-3) two_users H)).
Defined.

(** The command on the two seeded users: twelve users after [--clear]. *)
Example handle_clear_twelve :
  objects_count (handle 12 true two_users).1 = 12
  /\ api_user_seq (handle 12 true two_users).1 = 14.
Proof. split; vm_compute; reflexivity. Qed.
